(** * Tongyi chat provider: translation, tool dispatch and the iteration loop

    A shallow embedding of [contrib/tongyi/chat.go] and the properties of its
    message translation, tool invocation, response assembly and bounded
    request/response iteration (synchronous and streaming). *)

From Stdlib Require Import ZArith NArith String Ascii List Sorted Lia.
From Corelib.Floats Require Import SpecFloat.
From Stdlib.Strings Require Import Byte.
From stdpp Require Import base option strings list gmap.
From Equations Require Import Equations.
Import ListNotations.

Local Open Scope string_scope.
Local Open Scope list_scope.
Local Open Scope Z_scope.

(** ** Errors *)

(** The package's sentinel errors, plus [ErrOther] for any error value made
    elsewhere ([errors.New] in place, the transport, a tool handler, the
    JSON and base64 codecs). *)
Inductive Error : Type :=
| ErrEmptyResponse
| ErrToolNotFound
| ErrTooManyIterations
| ErrInvalidAPIKey
| ErrInvalidModel
| ErrOther (msg : string).

(** A Go [(T, error)] result on the paths where the value is dropped as soon
    as the error is non-nil. *)
Inductive result (A : Type) : Type :=
| Ok (a : A)
| Err (e : Error).
Arguments Ok {A} a.
Arguments Err {A} e.

(** ** Model name constants *)

Definition QwenTurbo : string := "qwen-turbo".
Definition QwenPlus : string := "qwen-plus".
Definition QwenMax : string := "qwen-max".
Definition QwenLong : string := "qwen-long".
Definition QwenVL : string := "qwen-vl-plus".
Definition QwenAudio : string := "qwen-audio-turbo".

(** [isValidModel]: a lookup in a Go map; a missing key reads as [false]. *)
Definition validModels : gmap string bool :=
  <[QwenTurbo := true]> (<[QwenPlus := true]> (<[QwenMax := true]>
  (<[QwenLong := true]> (<[QwenVL := true]> (<[QwenAudio := true]> ∅))))).

Definition isValidModel (model : string) : bool :=
  default false (validModels !! model).

(** [isValidAPIKey] *)
Definition isValidAPIKey (key : string) : bool :=
  (0 <? Z.of_nat (String.length key)) && (20 <=? Z.of_nat (String.length key)).

(** ** base64, standard alphabet with padding ([base64.StdEncoding]) *)

Definition encodeStd : string :=
  "ABCDEFGHIJKLMNOPQRSTUVWXYZabcdefghijklmnopqrstuvwxyz0123456789+/".

Definition padChar : ascii := "="%char.

Definition enc (v : N) : ascii :=
  match String.get (N.to_nat (N.land v 63)) encodeStd with
  | Some c => c
  | None => padChar
  end.

Fixpoint EncodeToString (src : list byte) : string :=
  match src with
  | [] => ""
  | [b0] =>
      let val := N.shiftl (Byte.to_N b0) 16 in
      String (enc (N.shiftr val 18)) (String (enc (N.shiftr val 12))
        (String padChar (String padChar "")))
  | [b0; b1] =>
      let val := N.lor (N.shiftl (Byte.to_N b0) 16) (N.shiftl (Byte.to_N b1) 8) in
      String (enc (N.shiftr val 18)) (String (enc (N.shiftr val 12))
        (String (enc (N.shiftr val 6)) (String padChar "")))
  | b0 :: b1 :: b2 :: rest =>
      let val := N.lor (N.lor (N.shiftl (Byte.to_N b0) 16)
                              (N.shiftl (Byte.to_N b1) 8)) (Byte.to_N b2) in
      String (enc (N.shiftr val 18)) (String (enc (N.shiftr val 12))
        (String (enc (N.shiftr val 6)) (String (enc val) (EncodeToString rest))))
  end.

(** ** What the provider takes from outside the package

    The state of everything outside the process (the vendor's endpoint, what
    tool handlers touch) is a value of [World], threaded explicitly. The JSON
    codec, the base64 decoder and the MIME accessors of the [blades] package
    are taken as given. *)
Class Platform : Type := {
  World : Type;
  Schema : Type;
  FunctionParameters : Type;
  json_Marshal : Schema -> result string;
  json_Unmarshal : string -> result FunctionParameters;
  DecodeString : string -> result (list byte);
  MimeType_Type : string -> string;
  MimeType_Format : string -> string
}.

Section DataModel.
Context {P : Platform}.

(** ** The vendor-neutral model ([blades]) *)

Inductive Role : Type := RoleUser | RoleSystem | RoleAssistant | RoleTool.

Inductive Status : Type := StatusIncomplete | StatusCompleted.

Inductive Part : Type :=
| TextPart (Text : string)
| FilePart (Name : string) (URI : string) (MimeType : string)
| DataPart (Name : string) (Bytes : list byte) (MimeType : string).

Record ToolCall : Type := {
  ToolCall_ID : string;
  ToolCall_Name : string;
  ToolCall_Arguments : string;
  ToolCall_Result : string
}.

Record Message : Type := {
  Message_Role : Role;
  Message_Parts : list Part;
  Message_Status : Status;
  Message_Metadata : gmap string string;
  Message_ToolCalls : list ToolCall
}.

(** A handler returns both values of its Go result and may change the
    world. *)
Record Tool : Type := {
  Tool_Name : string;
  Tool_Description : string;
  Tool_InputSchema : option Schema;
  Tool_Handle : string -> World -> (string * option Error) * World
}.

Record ModelRequest : Type := {
  ModelRequest_Model : string;
  ModelRequest_Messages : list Message;
  ModelRequest_Tools : list Tool
}.

(** A [float64] is its IEEE 754 value. *)
Definition float64 : Type := spec_float.

Definition zero64 : float64 := S754_zero false.

Record ModelOptions : Type := {
  Temperature : float64;
  TopP : float64;
  MaxOutputTokens : Z;
  ReasoningEffort : string;
  MaxIterations : Z
}.

Record ModelResponse : Type := {
  ModelResponse_Messages : list Message
}.

(** ** The wire format ([openai]) *)

Inductive ContentPart : Type :=
| TextContentPart (text : string)
| ImageContentPart (URL : string)
| InputAudioContentPart (Data : string) (Format : string)
| FileContentPart (FileData : string) (Filename : string).

Record FunctionDefinitionParam : Type := {
  Function_Name : string;
  Function_Description : option string;
  Function_Parameters : option FunctionParameters
}.

Record WireToolCall : Type := {
  Call_ID : string;
  Call_Function_Name : string;
  Call_Function_Arguments : string
}.

Record ChatCompletionMessage : Type := {
  Content : string;
  Refusal : string;
  Audio_Data : string;
  ToolCalls : list WireToolCall
}.

Record ChatCompletionChoice : Type := {
  Choice_FinishReason : string;
  Choice_Message : ChatCompletionMessage
}.

Record ChatCompletion : Type := {
  Choices : list ChatCompletionChoice
}.

Record ChunkDelta : Type := {
  Delta_Content : string;
  Delta_Refusal : string;
  Delta_ToolCalls : list WireToolCall
}.

Record ChatCompletionChunkChoice : Type := {
  ChunkChoice_FinishReason : string;
  ChunkChoice_Delta : ChunkDelta
}.

Record ChatCompletionChunk : Type := {
  Chunk_Choices : list ChatCompletionChunkChoice
}.

(** One entry of the request's message list. [ToParam] is the assistant's
    own message turned back into a request entry. *)
Inductive MessageParam : Type :=
| UserMessage (parts : list ContentPart)
| AssistantMessage (text : string)
| SystemMessage (parts : list string)
| ToolMessage (content : string) (toolCallID : string)
| ToParam (m : ChatCompletionMessage).

Record ChatCompletionNewParams : Type := {
  Params_Tools : list FunctionDefinitionParam;
  Params_Model : string;
  Params_Messages : list MessageParam;
  Params_TopP : option float64;
  Params_Temperature : option float64;
  Params_MaxCompletionTokens : option Z;
  Params_ReasoningEffort : string
}.

Definition emptyParams : ChatCompletionNewParams :=
  {| Params_Tools := []; Params_Model := ""; Params_Messages := [];
     Params_TopP := None; Params_Temperature := None;
     Params_MaxCompletionTokens := None; Params_ReasoningEffort := "" |}.

(** [params.Messages = append(params.Messages, m)] *)
Definition appendMessage (params : ChatCompletionNewParams) (m : MessageParam)
  : ChatCompletionNewParams :=
  {| Params_Tools := Params_Tools params;
     Params_Model := Params_Model params;
     Params_Messages := Params_Messages params ++ [m];
     Params_TopP := Params_TopP params;
     Params_Temperature := Params_Temperature params;
     Params_MaxCompletionTokens := Params_MaxCompletionTokens params;
     Params_ReasoningEffort := Params_ReasoningEffort params |}.

(** ** Translation of a request *)

(** [toTools] *)
Fixpoint toTools_loop (tools : list Tool) (params : list FunctionDefinitionParam)
  : result (list FunctionDefinitionParam) :=
  match tools with
  | [] => Ok params
  | tool :: rest =>
      let description :=
        if String.eqb (Tool_Description tool) "" then None
        else Some (Tool_Description tool) in
      match Tool_InputSchema tool with
      | None =>
          toTools_loop rest
            (params ++ [{| Function_Name := Tool_Name tool;
                           Function_Description := description;
                           Function_Parameters := None |}])
      | Some schema =>
          match json_Marshal schema with
          | Err e => Err e
          | Ok b =>
              match json_Unmarshal b with
              | Err e => Err e
              | Ok parameters =>
                  toTools_loop rest
                    (params ++ [{| Function_Name := Tool_Name tool;
                                   Function_Description := description;
                                   Function_Parameters := Some parameters |}])
              end
          end
      end
  end.

Definition toTools (tools : list Tool) : result (list FunctionDefinitionParam) :=
  match tools with
  | [] => Ok []
  | _ => toTools_loop tools []
  end.

(** [toTextParts] *)
Definition toTextParts (message : Message) : list string :=
  fold_left (fun parts part =>
               match part with
               | TextPart text => parts ++ [text]
               | _ => parts
               end)
            (Message_Parts message) [].

(** The body of the loop in [toContentParts]: what one part appends. A file
    part of another MIME type is logged and left out. *)
Definition toContentPart (part : Part) : list ContentPart :=
  match part with
  | TextPart text => [TextContentPart text]
  | FilePart _ uri mime =>
      if String.eqb (MimeType_Type mime) "image" then [ImageContentPart uri]
      else if String.eqb (MimeType_Type mime) "audio" then
        [InputAudioContentPart uri (MimeType_Format mime)]
      else []
  | DataPart name bytes mime =>
      if String.eqb (MimeType_Type mime) "image" then
        let base64Data := "data:" +:+ mime +:+ ";base64," +:+ EncodeToString bytes in
        [ImageContentPart base64Data]
      else if String.eqb (MimeType_Type mime) "audio" then
        [InputAudioContentPart ("data:;base64," +:+ EncodeToString bytes)
                               (MimeType_Format mime)]
      else [FileContentPart (EncodeToString bytes) name]
  end.

(** [toContentParts] *)
Definition toContentParts (message : Message) : list ContentPart :=
  fold_left (fun parts part => parts ++ toContentPart part)
            (Message_Parts message) [].

(** [toChatCompletionParams] *)
Definition toChatCompletionParams (req : ModelRequest) (opt : ModelOptions)
  : result ChatCompletionNewParams :=
  if negb (isValidModel (ModelRequest_Model req)) then Err ErrInvalidModel
  else
    match ModelRequest_Messages req with
    | [] => Err (ErrOther "at least one message is required")
    | _ =>
        match toTools (ModelRequest_Tools req) with
        | Err e => Err e
        | Ok tools =>
            let messages :=
              fold_left (fun msgs msg =>
                match Message_Role msg with
                | RoleUser => msgs ++ [UserMessage (toContentParts msg)]
                | RoleAssistant =>
                    match toTextParts msg with
                    | [] => msgs
                    | text :: _ => msgs ++ [AssistantMessage text]
                    end
                | RoleSystem => msgs ++ [SystemMessage (toTextParts msg)]
                | RoleTool => msgs
                end)
                (ModelRequest_Messages req) [] in
            Ok {| Params_Tools := tools;
                  Params_Model := ModelRequest_Model req;
                  Params_Messages := messages;
                  Params_TopP :=
                    if SFltb zero64 (TopP opt) then Some (TopP opt) else None;
                  Params_Temperature :=
                    if SFltb zero64 (Temperature opt)
                    then Some (Temperature opt) else None;
                  Params_MaxCompletionTokens :=
                    if 0 <? MaxOutputTokens opt then Some (MaxOutputTokens opt) else None;
                  Params_ReasoningEffort := ReasoningEffort opt |}
        end
    end.

(** ** Tool dispatch *)

(** [toolCall]: the first tool of that name answers; both values of its
    result are passed on as they are. *)
Fixpoint toolCall (tools : list Tool) (name arguments : string) (w : World)
  : (string * option Error) * World :=
  match tools with
  | [] => (("", Some ErrToolNotFound), w)
  | tool :: rest =>
      if String.eqb (Tool_Name tool) name then Tool_Handle tool arguments w
      else toolCall rest name arguments w
  end.

(** ** Response assembly *)

Definition newMessage (status : Status) : Message :=
  {| Message_Role := RoleAssistant; Message_Parts := [];
     Message_Status := status; Message_Metadata := ∅;
     Message_ToolCalls := [] |}.

Definition addPart (msg : Message) (part : Part) : Message :=
  {| Message_Role := Message_Role msg;
     Message_Parts := Message_Parts msg ++ [part];
     Message_Status := Message_Status msg;
     Message_Metadata := Message_Metadata msg;
     Message_ToolCalls := Message_ToolCalls msg |}.

Definition setMetadata (msg : Message) (key value : string) : Message :=
  {| Message_Role := Message_Role msg;
     Message_Parts := Message_Parts msg;
     Message_Status := Message_Status msg;
     Message_Metadata := <[key := value]> (Message_Metadata msg);
     Message_ToolCalls := Message_ToolCalls msg |}.

(** [msg.Role = blades.RoleTool; msg.ToolCalls = append(msg.ToolCalls, call)] *)
Definition addToolCall (msg : Message) (call : ToolCall) : Message :=
  {| Message_Role := RoleTool;
     Message_Parts := Message_Parts msg;
     Message_Status := Message_Status msg;
     Message_Metadata := Message_Metadata msg;
     Message_ToolCalls := Message_ToolCalls msg ++ [call] |}.

(** The loop over one choice's tool calls in [choiceToResponse]. The request
    is handed back on both exits: the caller's [params] is written through a
    pointer, so what was appended before an error stays appended. *)
Fixpoint toolCalls_loop (tools : list Tool) (calls : list WireToolCall)
    (msg : Message) (params : ChatCompletionNewParams) (w : World)
  : (ChatCompletionNewParams * result Message) * World :=
  match calls with
  | [] => ((params, Ok msg), w)
  | call :: rest =>
      let '((result, err), w1) :=
        toolCall tools (Call_Function_Name call) (Call_Function_Arguments call) w in
      match err with
      | Some e => ((params, Err e), w1)
      | None =>
          let msg1 := addToolCall msg
            {| ToolCall_ID := Call_ID call;
               ToolCall_Name := Call_Function_Name call;
               ToolCall_Arguments := Call_Function_Arguments call;
               ToolCall_Result := result |} in
          let params1 := appendMessage params (ToolMessage result (Call_ID call)) in
          toolCalls_loop tools rest msg1 params1 w1
      end
  end.

(** The loop over the choices in [choiceToResponse]. *)
Fixpoint choiceToResponse_loop (tools : list Tool)
    (choices : list ChatCompletionChoice) (res : ModelResponse)
    (params : ChatCompletionNewParams) (w : World)
  : (ChatCompletionNewParams * result ModelResponse) * World :=
  match choices with
  | [] => ((params, Ok res), w)
  | choice :: rest =>
      let m := Choice_Message choice in
      let msg := newMessage StatusCompleted in
      let msg :=
        if String.eqb (Content m) "" then msg else addPart msg (TextPart (Content m)) in
      let decoded :=
        if String.eqb (Audio_Data m) "" then Ok msg
        else match DecodeString (Audio_Data m) with
             | Err e => Err e
             | Ok bytes => Ok (addPart msg (DataPart "" bytes ""))
             end in
      match decoded with
      | Err e => ((params, Err e), w)
      | Ok msg =>
          let msg :=
            if String.eqb (Refusal m) "" then msg
            else setMetadata msg "refusal" (Refusal m) in
          let msg :=
            if String.eqb (Choice_FinishReason choice) "" then msg
            else setMetadata msg "finish_reason" (Choice_FinishReason choice) in
          let params :=
            match ToolCalls m with
            | [] => params
            | _ :: _ => appendMessage params (ToParam m)
            end in
          match toolCalls_loop tools (ToolCalls m) msg params w with
          | ((params, Err e), w) => ((params, Err e), w)
          | ((params, Ok msg), w) =>
              choiceToResponse_loop tools rest
                {| ModelResponse_Messages := ModelResponse_Messages res ++ [msg] |}
                params w
          end
      end
  end.

(** [choiceToResponse] *)
Definition choiceToResponse (params : ChatCompletionNewParams) (tools : list Tool)
    (choices : list ChatCompletionChoice) (w : World)
  : (ChatCompletionNewParams * result ModelResponse) * World :=
  choiceToResponse_loop tools choices {| ModelResponse_Messages := [] |} params w.

(** [chunkChoiceToResponse]: no tool is run on a partial update. *)
Definition chunkChoiceToResponse (tools : list Tool)
    (choices : list ChatCompletionChunkChoice) : result ModelResponse :=
  Ok {| ModelResponse_Messages :=
    fold_left (fun msgs choice =>
      let d := ChunkChoice_Delta choice in
      let msg := newMessage StatusIncomplete in
      let msg :=
        if String.eqb (Delta_Content d) "" then msg
        else addPart msg (TextPart (Delta_Content d)) in
      let msg :=
        if String.eqb (Delta_Refusal d) "" then msg
        else setMetadata msg "refusal" (Delta_Refusal d) in
      let msg :=
        if String.eqb (ChunkChoice_FinishReason choice) "" then msg
        else setMetadata msg "finish_reason" (ChunkChoice_FinishReason choice) in
      let msg :=
        fold_left (fun msg call =>
                     addToolCall msg
                       {| ToolCall_ID := Call_ID call;
                          ToolCall_Name := Call_Function_Name call;
                          ToolCall_Arguments := Call_Function_Arguments call;
                          ToolCall_Result := "" |})
                  (Delta_ToolCalls d) msg in
      msgs ++ [msg])
      choices [] |}.

(** The test the two drivers run on the assembled messages: is there one of
    role tool with at least one tool call? *)
Definition wantsIteration (msg : Message) : bool :=
  match Message_Role msg with
  | RoleTool =>
      match Message_ToolCalls msg with
      | [] => false
      | _ :: _ => true
      end
  | _ => false
  end.

End DataModel.

(** ** The wire client

    [Completions_New] and [Completions_NewStreaming] are the vendor's two
    calls. A wire stream is the chunks its [Next]/[Current] deliver and the
    error its [Err] reports once [Next] has answered false. [AddChunk] is the
    client's accumulator. *)
Record WireStream : Type := {
  Stream_chunks : list ChatCompletionChunk;
  Stream_Err : option Error
}.

Class WireClient {P : Platform} : Type := {
  Completions_New :
    ChatCompletionNewParams -> World -> result ChatCompletion * World;
  Completions_NewStreaming :
    ChatCompletionNewParams -> World -> WireStream * World;
  AddChunk : ChatCompletion -> ChatCompletionChunk -> ChatCompletion
}.

Section Provider.
Context {P : Platform} {C : WireClient}.

(** The world together with the requests submitted to the vendor so far, in
    order. The log is what "a request cycle" and "a network call" are read
    from. *)
Record State : Type := {
  outside : World;
  sent : list ChatCompletionNewParams
}.

Definition submit (params : ChatCompletionNewParams) (s : State) (w : World) : State :=
  {| outside := w; sent := sent s ++ [params] |}.

Definition decrement (opts : ModelOptions) : ModelOptions :=
  {| Temperature := Temperature opts; TopP := TopP opts;
     MaxOutputTokens := MaxOutputTokens opts;
     ReasoningEffort := ReasoningEffort opts;
     MaxIterations := MaxIterations opts - 1 |}.

(** ** The iteration controller *)

(** [New]: the loop over the assembled messages returns from inside, with
    the recursive call, on the first message of role tool that carries a tool
    call; it falls through to [return res, nil] when there is none. *)
Equations? New (params : ChatCompletionNewParams) (tools : list Tool)
    (opts : ModelOptions) (s : State) : result ModelResponse * State
  by wf (Z.to_nat (MaxIterations opts)) lt :=
New params tools opts s with Z_lt_dec (MaxIterations opts) 1 := {
  | left _ => (Err ErrTooManyIterations, s)
  | right _ =>
      match Completions_New params (outside s) with
      | (Err e, w1) => (Err e, submit params s w1)
      | (Ok chatResponse, w1) =>
          match choiceToResponse params tools (Choices chatResponse) w1 with
          | ((_, Err e), w2) => (Err e, submit params s w2)
          | ((params', Ok res), w2) =>
              if existsb wantsIteration (ModelResponse_Messages res)
              then New params' tools (decrement opts) (submit params s w2)
              else (Ok res, submit params s w2)
          end
      end }.
Proof. simpl. lia. Qed.

(** [Generate] *)
Definition defaultOptions : ModelOptions :=
  {| Temperature := zero64; TopP := zero64; MaxOutputTokens := 0;
     ReasoningEffort := ""; MaxIterations := 3 |}.

Definition applyOptions (opts : list (ModelOptions -> ModelOptions)) : ModelOptions :=
  fold_left (fun opt apply => apply opt) opts defaultOptions.

Definition Generate (req : ModelRequest) (opts : list (ModelOptions -> ModelOptions))
    (s : State) : result ModelResponse * State :=
  let opt := applyOptions opts in
  match toChatCompletionParams req opt with
  | Err e => (Err e, s)
  | Ok params => New params (ModelRequest_Tools req) opt s
  end.

(** ** The stream pipeline *)

(** Modelled from the spec: [blades.StreamPipe] and the [blades.Streamer]
    interface are declared outside this package. A stream is the items its
    producer sent, in order, and the error its producer ended with: the
    failure of the background task ends the output sequence with that error,
    and nothing is emitted after it. A consumer draining a stream sees every
    item, then the error. *)
Record Streamer : Type := {
  items : list ModelResponse;
  failure : option Error
}.

(** The loop over the inbound chunks: accumulate, decode, send. *)
Fixpoint chunks_loop (tools : list Tool) (chunks : list ChatCompletionChunk)
    (acc : ChatCompletion) (out : list ModelResponse)
  : ChatCompletion * list ModelResponse * option Error :=
  match chunks with
  | [] => (acc, out, None)
  | chunk :: rest =>
      let acc := AddChunk acc chunk in
      match chunkChoiceToResponse tools (Chunk_Choices chunk) with
      | Err e => (acc, out, Some e)
      | Ok res => chunks_loop tools rest acc (out ++ [res])
      end
  end.

(** The loop over the final messages: every one that asks for another round
    lowers the budget, opens a nested stream on the extended request and
    relays it. [nested] is [NewStreaming] on that request. *)
Fixpoint relay_loop (nested : ModelOptions -> State -> result Streamer * State)
    (msgs : list Message) (opts : ModelOptions) (out : list ModelResponse)
    (s : State) : Streamer * State :=
  match msgs with
  | [] => ({| items := out; failure := None |}, s)
  | msg :: rest =>
      if wantsIteration msg then
        let opts := decrement opts in
        match nested opts s with
        | (Err e, s1) => ({| items := out; failure := Some e |}, s1)
        | (Ok toolStream, s1) =>
            match failure toolStream with
            | Some e =>
                ({| items := out ++ items toolStream; failure := Some e |}, s1)
            | None => relay_loop nested rest opts (out ++ items toolStream) s1
            end
        end
      else relay_loop nested rest opts out s
  end.

(** [NewStreaming], by recursion on a bound [fuel] of the budget; the entry
    guard answers before the bound can run out (see
    [NewStreaming_rec_fuel]). *)
Fixpoint NewStreaming_rec (fuel : nat) (params : ChatCompletionNewParams)
    (tools : list Tool) (opts : ModelOptions) (s : State)
  : result Streamer * State :=
  if MaxIterations opts <? 1 then (Err ErrTooManyIterations, s)
  else
    match fuel with
    | O => (Err ErrTooManyIterations, s)
    | S fuel' =>
        let '(stream, w1) := Completions_NewStreaming params (outside s) in
        let s1 := submit params s w1 in
        match chunks_loop tools (Stream_chunks stream)
                {| Choices := [] |} [] with
        | (_, out, Some e) => (Ok {| items := out; failure := Some e |}, s1)
        | (acc, out, None) =>
            match choiceToResponse params tools (Choices acc) w1 with
            | ((_, Err e), w2) =>
                (Ok {| items := out; failure := Some e |}, submit params s w2)
            | ((params', Ok lastResponse), w2) =>
                let '(pipe, s3) :=
                  relay_loop (NewStreaming_rec fuel' params' tools)
                    (ModelResponse_Messages lastResponse) opts
                    (out ++ [lastResponse]) (submit params s w2) in
                (Ok pipe, s3)
            end
        end
    end.

Definition NewStreaming (params : ChatCompletionNewParams) (tools : list Tool)
    (opts : ModelOptions) (s : State) : result Streamer * State :=
  NewStreaming_rec (Z.to_nat (MaxIterations opts)) params tools opts s.

(** [NewStream] *)
Definition NewStream (req : ModelRequest) (opts : list (ModelOptions -> ModelOptions))
    (s : State) : result Streamer * State :=
  let opt := applyOptions opts in
  if MaxIterations opt <=? 0 then (Err ErrTooManyIterations, s)
  else
    match toChatCompletionParams req opt with
    | Err e => (Err e, s)
    | Ok params => NewStreaming params (ModelRequest_Tools req) opt s
    end.

End Provider.

(** ** Vocabulary of the statements *)

Section Vocabulary.
Context {P : Platform}.

(** The six recognised model names. *)
Definition supportedModels : list string :=
  [QwenTurbo; QwenPlus; QwenMax; QwenLong; QwenVL; QwenAudio].

(** One request extends another: its message list starts with the other's. *)
Definition extends (p q : ChatCompletionNewParams) : Prop :=
  Params_Messages p `prefix_of` Params_Messages q.

(** Running tool calls in order: the result strings when every one
    succeeds, and the world afterwards. *)
Fixpoint runCalls (tools : list Tool) (calls : list WireToolCall) (w : World)
  : option (list string) * World :=
  match calls with
  | [] => (Some [], w)
  | call :: rest =>
      let '((result, err), w1) :=
        toolCall tools (Call_Function_Name call) (Call_Function_Arguments call) w in
      match err with
      | Some _ => (None, w1)
      | None =>
          let '(results, w2) := runCalls tools rest w1 in
          (option_map (cons result) results, w2)
      end
  end.

(** The tool-result entries of calls that returned [results]. *)
Definition toolMessages (results : list string) (calls : list WireToolCall)
  : list MessageParam :=
  zip_with ToolMessage results (map Call_ID calls).

(** The audio field of a message is absent or decodes. *)
Definition audioDecodes (m : ChatCompletionMessage) : Prop :=
  Audio_Data m = "" \/ exists bytes, DecodeString (Audio_Data m) = Ok bytes.

(** A handler that never reports an error. *)
Definition neverFails (tool : Tool) : Prop :=
  forall arguments w, snd (fst (Tool_Handle tool arguments w)) = None.

(** The first tool of the name a call asks for exists and never fails. *)
Definition answerable (tools : list Tool) (call : WireToolCall) : Prop :=
  exists tool,
    find (fun t => String.eqb (Tool_Name t) (Call_Function_Name call)) tools = Some tool
    /\ neverFails tool.

(** A completion that carries a tool call, all of whose choices assemble:
    audio decodes and every call is answerable. *)
Definition asksForTools (tools : list Tool) (chat : ChatCompletion) : Prop :=
  Exists (fun choice => ToolCalls (Choice_Message choice) <> []) (Choices chat)
  /\ Forall (fun choice =>
               audioDecodes (Choice_Message choice)
               /\ Forall (answerable tools) (ToolCalls (Choice_Message choice)))
            (Choices chat).

End Vocabulary.

(** ** A concrete setting

    One platform and a few scripted vendors and tools, to run the
    definitions on. The world counts the tool runs. *)

(** Modelled from the spec: [MimeType.Type] is declared in the [blades]
    package; parts classify by the MIME "type" prefix (image, audio,
    other). *)
Definition mimeType (m : string) : string :=
  if String.prefix "image/" m then "image"
  else if String.prefix "audio/" m then "audio"
  else "file".

(** Modelled from the spec: [MimeType.Format] is declared in the [blades]
    package; the format is derived from the MIME type, here as what follows
    the slash. *)
Definition mimeFormat (m : string) : string :=
  match String.index 0 "/" m with
  | Some n => String.substring (S n) (String.length m - S n) m
  | None => m
  end.

Definition sextet (c : ascii) : option N :=
  option_map N.of_nat (String.index 0 (String c "") encodeStd).

Definition byteOf (n : N) : byte :=
  default x00 (Byte.of_N (N.land n 255)).

(** A decoder for the padded standard alphabet, quantum by quantum. *)
Fixpoint decodeQuanta (cs : list ascii) : option (list byte) :=
  match cs with
  | [] => Some []
  | a :: b :: c :: d :: rest =>
      match sextet a, sextet b with
      | Some va, Some vb =>
          let b0 := byteOf (N.lor (N.shiftl va 2) (N.shiftr vb 4)) in
          if Ascii.eqb c padChar then
            match Ascii.eqb d padChar, rest with
            | true, [] => Some [b0]
            | _, _ => None
            end
          else
            match sextet c with
            | None => None
            | Some vc =>
                let b1 := byteOf (N.lor (N.shiftl vb 4) (N.shiftr vc 2)) in
                if Ascii.eqb d padChar then
                  match rest with
                  | [] => Some [b0; b1]
                  | _ => None
                  end
                else
                  match sextet d with
                  | None => None
                  | Some vd =>
                      let b2 := byteOf (N.lor (N.shiftl vc 6) vd) in
                      option_map (fun l => b0 :: b1 :: b2 :: l) (decodeQuanta rest)
                  end
            end
      | _, _ => None
      end
  | _ => None
  end.

Definition decodeStd (s : string) : result (list byte) :=
  match decodeQuanta (list_ascii_of_string s) with
  | Some bytes => Ok bytes
  | None => Err (ErrOther "illegal base64 data")
  end.

Definition demoPlatform : Platform :=
  {| World := nat;
     Schema := string;
     FunctionParameters := string;
     json_Marshal := fun schema => Ok schema;
     json_Unmarshal := fun b => Ok b;
     DecodeString := decodeStd;
     MimeType_Type := mimeType;
     MimeType_Format := mimeFormat |}.

Definition tick : @World demoPlatform -> @World demoPlatform := S.

(** A tool that answers with its argument, and one whose handler fails. *)
Definition echoTool : @Tool demoPlatform :=
  {| Tool_Name := "echo"; Tool_Description := "repeat the argument";
     Tool_InputSchema := None;
     Tool_Handle := fun arguments w => ((arguments, None), tick w) |}.

Definition brokenTool : @Tool demoPlatform :=
  {| Tool_Name := "broken"; Tool_Description := "";
     Tool_InputSchema := None;
     Tool_Handle := fun _ w => (("", Some (ErrOther "handler failed")), tick w) |}.

Definition demoTools : list (@Tool demoPlatform) := [echoTool; brokenTool].

Definition callEcho (id arguments : string) : WireToolCall :=
  {| Call_ID := id; Call_Function_Name := "echo";
     Call_Function_Arguments := arguments |}.

Definition callBroken (id : string) : WireToolCall :=
  {| Call_ID := id; Call_Function_Name := "broken";
     Call_Function_Arguments := "" |}.

Definition textChoice (text : string) : ChatCompletionChoice :=
  {| Choice_FinishReason := "stop";
     Choice_Message := {| Content := text; Refusal := ""; Audio_Data := "";
                          ToolCalls := [] |} |}.

Definition toolChoice (calls : list WireToolCall) : ChatCompletionChoice :=
  {| Choice_FinishReason := "tool_calls";
     Choice_Message := {| Content := ""; Refusal := ""; Audio_Data := "";
                          ToolCalls := calls |} |}.

(** An accumulator that joins the deltas position by position. *)
Definition joinDelta (c : @ChatCompletionChoice) (d : @ChatCompletionChunkChoice)
  : ChatCompletionChoice :=
  {| Choice_FinishReason := ChunkChoice_FinishReason d;
     Choice_Message :=
       {| Content := Content (Choice_Message c) +:+ Delta_Content (ChunkChoice_Delta d);
          Refusal := Refusal (Choice_Message c) +:+ Delta_Refusal (ChunkChoice_Delta d);
          Audio_Data := Audio_Data (Choice_Message c);
          ToolCalls := ToolCalls (Choice_Message c)
                         ++ Delta_ToolCalls (ChunkChoice_Delta d) |} |}.

Fixpoint joinDeltas (cs : list ChatCompletionChoice)
    (ds : list ChatCompletionChunkChoice) : list ChatCompletionChoice :=
  match cs, ds with
  | cs, [] => cs
  | [], d :: ds' => joinDelta (textChoice "") d :: joinDeltas [] ds'
  | c :: cs', d :: ds' => joinDelta c d :: joinDeltas cs' ds'
  end.

(** A vendor that answers every request with the same completion, or the
    same stream. *)
Definition scriptedClient (reply : result ChatCompletion)
    (stream : WireStream) : @WireClient demoPlatform :=
  {| Completions_New := fun _ w => (reply, w);
     Completions_NewStreaming := fun _ w => (stream, w);
     AddChunk := fun acc chunk =>
       {| Choices := joinDeltas (Choices acc) (Chunk_Choices chunk) |} |}.

Definition noStream : WireStream :=
  {| Stream_chunks := []; Stream_Err := None |}.

(** The model asks for the echo tool on every cycle. *)
Definition toolLoopClient : @WireClient demoPlatform :=
  scriptedClient (Ok {| Choices := [toolChoice [callEcho "call_1" "ping"]] |}) noStream.

(** The vendor answers with no choices. *)
Definition emptyClient : @WireClient demoPlatform :=
  scriptedClient (Ok {| Choices := [] |}) noStream.

(** The wire stream breaks before the first chunk. *)
Definition brokenStreamClient : @WireClient demoPlatform :=
  scriptedClient (Ok {| Choices := [] |})
    {| Stream_chunks := []; Stream_Err := Some (ErrOther "unexpected EOF") |}.

Definition userText (text : string) : Message :=
  {| Message_Role := RoleUser; Message_Parts := [TextPart text];
     Message_Status := StatusCompleted; Message_Metadata := ∅;
     Message_ToolCalls := [] |}.

Definition helloParams : @ChatCompletionNewParams demoPlatform :=
  appendMessage emptyParams (UserMessage [TextContentPart "hello"]).

Definition quiet : @World demoPlatform := 0%nat.

Definition startState : @State demoPlatform :=
  {| outside := quiet; sent := [] |}.

Definition budget (n : Z) : ModelOptions :=
  {| Temperature := zero64; TopP := zero64; MaxOutputTokens := 0;
     ReasoningEffort := ""; MaxIterations := n |}.

(** The [MaxIterations] option of the [blades] package. *)
Definition withMaxIterations (n : Z) (o : ModelOptions) : ModelOptions :=
  {| Temperature := Temperature o; TopP := TopP o;
     MaxOutputTokens := MaxOutputTokens o;
     ReasoningEffort := ReasoningEffort o; MaxIterations := n |}.

Definition helloRequest (model : string) : @ModelRequest demoPlatform :=
  {| ModelRequest_Model := model;
     ModelRequest_Messages := [userText "hello"];
     ModelRequest_Tools := demoTools |}.

(** A user message with one inline audio clip. *)
Definition clipBytes : list byte := [x52; x49; x46; x46]%byte.

Definition clipMessage : Message :=
  {| Message_Role := RoleUser;
     Message_Parts := [DataPart "clip.wav" clipBytes "audio/wav"];
     Message_Status := StatusCompleted; Message_Metadata := ∅;
     Message_ToolCalls := [] |}.

(** A choice with three tool calls, the second of which fails. *)
Definition mixedChoice : ChatCompletionChoice :=
  toolChoice [callEcho "call_1" "first"; callBroken "call_2"; callEcho "call_3" "third"].

(** ** Construction of the provider *)

(** The request options [NewChatProvider] hands to the client it builds. *)
Inductive RequestOption : Type :=
| WithBaseURL (url : string)
| WithAPIKey (key : string).

Definition baseURL : string :=
  "https://dashscope.aliyuncs.com/compatible-mode/v1".

(** [NewClient] is [openai.NewClient], the constructor of the client
    library: it is taken as given, and what it adds of its own to the
    options it receives (its defaults, read from the environment) is its
    business. [Getenv] is [os.Getenv], which answers the empty string for a
    variable that is not set. *)
Section Construction.
Context {Client : Type}.
Variable NewClient : list RequestOption -> Client.
Variable Getenv : string -> string.

Record ChatProvider : Type := {
  client : Client
}.

(** [NewChatProvider] *)
Definition NewChatProvider (apiKey : list string) : ChatProvider :=
  let opts := [WithBaseURL baseURL] in
  if (0 <? Z.of_nat (length apiKey)) && negb (String.eqb (hd "" apiKey) "") then
    if negb (isValidAPIKey (hd "" apiKey)) then {| client := NewClient opts |}
    else {| client := NewClient (opts ++ [WithAPIKey (hd "" apiKey)]) |}
  else
    let envKey := Getenv "DASHSCOPE_API_KEY" in
    let envKey := if String.eqb envKey "" then Getenv "OPENAI_API_KEY" else envKey in
    if negb (String.eqb envKey "")
    then {| client := NewClient (opts ++ [WithAPIKey envKey]) |}
    else {| client := NewClient opts |}.

End Construction.

(** ** Further vocabulary *)

Section MoreVocabulary.
Context {P : Platform}.

(** A file part whose MIME type is neither image nor audio. *)
Definition leftOut (part : Part) : bool :=
  match part with
  | FilePart _ _ mime =>
      negb (String.eqb (MimeType_Type mime) "image")
      && negb (String.eqb (MimeType_Type mime) "audio")
  | _ => false
  end.

(** What the JSON round trip makes of a tool's input schema. *)
Definition schemaOutcome (tool : Tool) : result (option FunctionParameters) :=
  match Tool_InputSchema tool with
  | None => Ok None
  | Some schema =>
      match json_Marshal schema with
      | Err e => Err e
      | Ok b =>
          match json_Unmarshal b with
          | Err e => Err e
          | Ok parameters => Ok (Some parameters)
          end
      end
  end.

Definition schemaConverts (tool : Tool) : Prop :=
  exists parameters, schemaOutcome tool = Ok parameters.

(** The request entries only the assembler writes: a tool result and the
    assistant's tool-call announcement. *)
Definition isInjected (m : MessageParam) : bool :=
  match m with
  | ToolMessage _ _ | ToParam _ => true
  | _ => false
  end.

(** A message that leaves no entry in the outbound request: one of role
    tool, or an assistant message without a Text part. *)
Definition untranslated (msg : Message) : Prop :=
  Message_Role msg = RoleTool
  \/ (Message_Role msg = RoleAssistant /\ toTextParts msg = []).

(** The tool-call record the assembler attaches for a call and its result. *)
Definition recordOf (call : WireToolCall) (result : string) : ToolCall :=
  {| ToolCall_ID := Call_ID call;
     ToolCall_Name := Call_Function_Name call;
     ToolCall_Arguments := Call_Function_Arguments call;
     ToolCall_Result := result |}.

(** A choice without tool calls. *)
Definition plain (choice : ChatCompletionChoice) : Prop :=
  ToolCalls (Choice_Message choice) = [].

(** The parts of the message a choice assembles to: the text, when there is
    some, then the decoded audio, when there is some. *)
Definition expectedParts (m : ChatCompletionMessage) : list Part :=
  (if String.eqb (Content m) "" then [] else [TextPart (Content m)])
  ++ (if String.eqb (Audio_Data m) "" then []
      else match DecodeString (Audio_Data m) with
           | Ok bytes => [DataPart "" bytes ""]
           | Err _ => []
           end).

(** The metadata of the message a choice assembles to. *)
Definition expectedMetadata (choice : ChatCompletionChoice) : gmap string string :=
  let refusal :=
    if String.eqb (Refusal (Choice_Message choice)) "" then ∅
    else <["refusal" := Refusal (Choice_Message choice)]> ∅ in
  if String.eqb (Choice_FinishReason choice) "" then refusal
  else <["finish_reason" := Choice_FinishReason choice]> refusal.

(** [msg] is what [choice] assembles to, for some results of its calls. *)
Definition assembled (choice : ChatCompletionChoice) (msg : Message) : Prop :=
  Message_Status msg = StatusCompleted
  /\ Message_Role msg
     = match ToolCalls (Choice_Message choice) with
       | [] => RoleAssistant
       | _ :: _ => RoleTool
       end
  /\ Message_Parts msg = expectedParts (Choice_Message choice)
  /\ Message_Metadata msg = expectedMetadata choice
  /\ exists results,
       length results = length (ToolCalls (Choice_Message choice))
       /\ Message_ToolCalls msg
          = zip_with recordOf (ToolCalls (Choice_Message choice)) results.

End MoreVocabulary.

(** A platform whose JSON decoder accepts only objects. *)
Definition strictPlatform : Platform :=
  {| World := nat;
     Schema := string;
     FunctionParameters := string;
     json_Marshal := fun schema => Ok schema;
     json_Unmarshal := fun b =>
       if String.prefix "{" b then Ok b
       else Err (ErrOther "json: cannot unmarshal into map");
     DecodeString := decodeStd;
     MimeType_Type := mimeType;
     MimeType_Format := mimeFormat |}.

Definition schemaText (schema : string) : @Schema strictPlatform := schema.

Definition schemaTool (name schema : string) : @Tool strictPlatform :=
  {| Tool_Name := name; Tool_Description := "";
     Tool_InputSchema := Some (schemaText schema);
     Tool_Handle := fun arguments w => ((arguments, None), w) |}.

(** An environment with both key variables set, and one with only the
    fallback. *)
Definition bothKeys (name : string) : string :=
  if String.eqb name "DASHSCOPE_API_KEY" then "sk-dashscope-0123456789"
  else if String.eqb name "OPENAI_API_KEY" then "sk-openai-0123456789abc"
  else "".

Definition fallbackOnly (name : string) : string :=
  if String.eqb name "OPENAI_API_KEY" then "sk-openai-0123456789abc" else "".

(** A client constructor to run [NewChatProvider] with: the client is the
    options it will use, those given preceded by the key of OPENAI_API_KEY
    when the environment has one. *)
Definition keyedFromEnvironment (Getenv : string -> string)
    (opts : list RequestOption) : list RequestOption :=
  (if String.eqb (Getenv "OPENAI_API_KEY") "" then []
   else [WithAPIKey (Getenv "OPENAI_API_KEY")]) ++ opts.

Definition partsMessage (role : Role) (parts : list Part) : Message :=
  {| Message_Role := role; Message_Parts := parts;
     Message_Status := StatusCompleted; Message_Metadata := ∅;
     Message_ToolCalls := [] |}.

Definition pngBytes : list byte := [x89; x50; x4e; x47]%byte.

(** More scripted vendors. *)
Definition textChunk (text : string) : ChatCompletionChunk :=
  {| Chunk_Choices :=
       [{| ChunkChoice_FinishReason := "";
           ChunkChoice_Delta := {| Delta_Content := text; Delta_Refusal := "";
                                   Delta_ToolCalls := [] |} |}] |}.

Definition toolChunk (calls : list WireToolCall) : ChatCompletionChunk :=
  {| Chunk_Choices :=
       [{| ChunkChoice_FinishReason := "tool_calls";
           ChunkChoice_Delta := {| Delta_Content := ""; Delta_Refusal := "";
                                   Delta_ToolCalls := calls |} |}] |}.

(** The answer arrives in three chunks. *)
Definition streamingClient : @WireClient demoPlatform :=
  scriptedClient (Ok {| Choices := [textChoice "Hello!"] |})
    {| Stream_chunks := [textChunk "Hel"; textChunk "lo"; textChunk "!"];
       Stream_Err := None |}.

(** Every stream announces a call of the echo tool. *)
Definition toolStreamClient : @WireClient demoPlatform :=
  scriptedClient (Ok {| Choices := [toolChoice [callEcho "call_1" "ping"]] |})
    {| Stream_chunks := [toolChunk [callEcho "call_1" "ping"]];
       Stream_Err := None |}.

(** The vendor cannot be reached. *)
Definition downClient : @WireClient demoPlatform :=
  scriptedClient (Err (ErrOther "connection refused")) noStream.

(** The vendor answers in plain text. *)
Definition textClient : @WireClient demoPlatform :=
  scriptedClient (Ok {| Choices := [textChoice "hi"] |}) noStream.

Definition emptyRequest : @ModelRequest demoPlatform :=
  {| ModelRequest_Model := QwenPlus;
     ModelRequest_Messages := [];
     ModelRequest_Tools := demoTools |}.

(** A vendor that asks for the echo tool until the request holds a tool
    result, and then answers in text. *)
Definition hasToolResult (params : @ChatCompletionNewParams demoPlatform) : bool :=
  existsb isInjected (Params_Messages params).

Definition answeringClient : @WireClient demoPlatform :=
  {| Completions_New := fun params w =>
       (Ok {| Choices := if hasToolResult params then [textChoice "pong"]
                         else [toolChoice [callEcho "call_1" "ping"]] |}, w);
     Completions_NewStreaming := fun params w =>
       ({| Stream_chunks := if hasToolResult params
                            then [textChunk "po"; textChunk "ng"]
                            else [toolChunk [callEcho "call_1" "ping"]];
           Stream_Err := None |}, w);
     AddChunk := fun acc chunk =>
       {| Choices := joinDeltas (Choices acc) (Chunk_Choices chunk) |} |}.

Definition audioChoice (text audio : string) : ChatCompletionChoice :=
  {| Choice_FinishReason := "stop";
     Choice_Message := {| Content := text; Refusal := "I would rather not";
                          Audio_Data := audio; ToolCalls := [] |} |}.

Definition twoCalls : ChatCompletionChoice :=
  toolChoice [callEcho "call_1" "first"; callEcho "call_2" "second"].

Definition toolOnlyRequest : @ModelRequest demoPlatform :=
  {| ModelRequest_Model := QwenPlus;
     ModelRequest_Messages := [partsMessage RoleTool [TextPart "42"];
                               partsMessage RoleAssistant [FilePart "a" "b" "c"]];
     ModelRequest_Tools := demoTools |}.

Definition pngMessage : Message :=
  partsMessage RoleUser [TextPart "look"; DataPart "pixel.png" pngBytes "image/png"].

(** Every stream announces a call of the tool whose handler fails. *)
Definition failingToolStreamClient : @WireClient demoPlatform :=
  scriptedClient (Ok {| Choices := [toolChoice [callBroken "call_9"]] |})
    {| Stream_chunks := [textChunk "wait"; toolChunk [callBroken "call_9"]];
       Stream_Err := None |}.

Example isValidModel_ex : isValidModel "qwen-max" = true /\ isValidModel "gpt-4" = false.
Proof. split; vm_compute; reflexivity. Qed.

Example EncodeToString_ex :
  EncodeToString [x89; x50; x4e; x47]%byte = "iVBORw=="
  /\ EncodeToString [x4d; x61; x6e]%byte = "TWFu"
  /\ EncodeToString [x4d; x61]%byte = "TWE=".
Proof. repeat split; vm_compute; reflexivity. Qed.

Example decodeStd_ex :
  decodeStd "TWFu" = Ok [x4d; x61; x6e]%byte
  /\ decodeStd "TWE=" = Ok [x4d; x61]%byte
  /\ decodeStd "TQ==" = Ok [x4d]%byte
  /\ decodeStd "T" = Err (ErrOther "illegal base64 data").
Proof. repeat split; vm_compute; reflexivity. Qed.

Example toolCall_ex :
  toolCall demoTools "echo" "ping" quiet = (("ping", None), tick quiet)
  /\ toolCall demoTools "missing" "ping" quiet = (("", Some ErrToolNotFound), quiet).
Proof. split; reflexivity. Qed.

Example New_ex :
  fst (New (C := toolLoopClient) helloParams demoTools (budget 2) startState)
  = Err ErrTooManyIterations.
Proof. vm_compute. reflexivity. Qed.

(** ** Properties of translation, dispatch and assembly *)

Section Assembly.
Context {P : Platform}.
Implicit Types (params : ChatCompletionNewParams) (tools : list Tool)
  (w : World) (msg : Message) (res : ModelResponse).

Lemma isValidModel_supported (model : string) :
  isValidModel model = true <-> model ∈ supportedModels.
Proof.
  unfold isValidModel, validModels, supportedModels.
  rewrite !lookup_insert, lookup_empty.
  rewrite !elem_of_cons, elem_of_nil.
  repeat case_decide; simpl; split; intros Hm; try done;
    first [ subst model; auto 10 | intuition congruence ].
Qed.

Lemma toContentParts_flat_map (message : Message) :
  toContentParts message = flat_map toContentPart (Message_Parts message).
Proof.
  unfold toContentParts.
  assert (G : forall parts acc,
             fold_left (fun parts part => parts ++ toContentPart part) parts acc
             = acc ++ flat_map toContentPart parts).
  { induction parts as [| part parts IH]; intros acc; simpl.
    - by rewrite app_nil_r.
    - by rewrite IH, <- app_assoc. }
  apply G.
Qed.

Lemma toolCall_skip tools (pre : list Tool) name arguments w :
  Forall (fun t => Tool_Name t <> name) pre ->
  toolCall (pre ++ tools) name arguments w = toolCall tools name arguments w.
Proof.
  induction 1 as [| t pre Hne _ IH]; simpl; [done |].
  apply String.eqb_neq in Hne. by rewrite Hne.
Qed.

Lemma toolCalls_loop_extends tools calls msg params w :
  extends params (fst (fst (toolCalls_loop tools calls msg params w))).
Proof.
  unfold extends.
  revert msg params w. induction calls as [| call calls IH]; intros msg params w; simpl.
  - done.
  - destruct (toolCall _ _ _ _) as [[r [e |]] w1]; simpl; [done |].
    etrans; [| apply IH]. simpl. by apply prefix_app_r.
Qed.

Lemma choiceToResponse_loop_extends tools choices res params w :
  extends params (fst (fst (choiceToResponse_loop tools choices res params w))).
Proof.
  unfold extends.
  revert res params w.
  induction choices as [| choice choices IH]; intros res params w; simpl; [done |].
  set (m := Choice_Message choice).
  match goal with |- context [match ?d with Ok _ => _ | Err _ => _ end] =>
    destruct d as [msg1 | e] end; simpl; [| done].
  match goal with |- context [toolCalls_loop tools (ToolCalls m) ?a ?b w] =>
    pose proof (toolCalls_loop_extends tools (ToolCalls m) a b w) as Hx;
    destruct (toolCalls_loop tools (ToolCalls m) a b w) as [[p1 [msg2 | e]] w1] end;
    unfold extends in Hx; simpl in Hx.
  - etrans; [| apply IH]. etrans; [| apply Hx].
    destruct (ToolCalls m); simpl; [done | by apply prefix_app_r].
  - simpl. etrans; [| apply Hx].
    destruct (ToolCalls m); simpl; [done | by apply prefix_app_r].
Qed.

Lemma toolCall_find tools name arguments w :
  toolCall tools name arguments w =
  match find (fun t => String.eqb (Tool_Name t) name) tools with
  | Some tool => Tool_Handle tool arguments w
  | None => (("", Some ErrToolNotFound), w)
  end.
Proof.
  induction tools as [| t tools IH]; simpl; [done |].
  by destruct (String.eqb (Tool_Name t) name).
Qed.

Lemma toolCalls_loop_parts tools calls msg params w params' msg' w' :
  toolCalls_loop tools calls msg params w = ((params', Ok msg'), w') ->
  Message_Parts msg' = Message_Parts msg.
Proof.
  revert msg params w.
  induction calls as [| call calls IH]; intros msg params w; simpl.
  - by intros [= _ <- _].
  - destruct (toolCall _ _ _ _) as [[r [e |]] w1]; [done |].
    intros H. by rewrite (IH _ _ _ H).
Qed.

Lemma choiceToResponse_loop_messages tools choices res params w params' res' w' :
  choiceToResponse_loop tools choices res params w = ((params', Ok res'), w') ->
  exists more,
    ModelResponse_Messages res' = ModelResponse_Messages res ++ more.
Proof.
  revert res params w.
  induction choices as [| choice choices IH]; intros res params w; simpl.
  - intros [= _ <- _]. exists []. by rewrite app_nil_r.
  - match goal with |- context [match ?d with Ok _ => _ | Err _ => _ end] =>
      destruct d as [msg1 | e] end; [| done].
    destruct (toolCalls_loop _ _ _ _ _) as [[p1 [msg2 | e]] w1]; [| done].
    intros H. destruct (IH _ _ _ H) as [more Hmore]. simpl in Hmore.
    exists (msg2 :: more). by rewrite Hmore, <- app_assoc.
Qed.

Lemma toolCalls_loop_run tools done calls msg params w results w1 :
  runCalls tools done w = (Some results, w1) ->
  exists msg' params',
    toolCalls_loop tools (done ++ calls) msg params w
    = toolCalls_loop tools calls msg' params' w1
    /\ Params_Messages params'
       = Params_Messages params ++ toolMessages results done.
Proof.
  revert msg params w results.
  induction done as [| call done IH]; intros msg params w results; simpl.
  - intros [= <- <-]. exists msg, params. by rewrite app_nil_r.
  - destruct (toolCall _ _ _ _) as [[r [e |]] w0]; [done |].
    destruct (runCalls tools done w0) as [[rs |] w2] eqn:Hrun; simpl; [| done].
    intros [= <- <-].
    destruct (IH (addToolCall msg
                    {| ToolCall_ID := Call_ID call;
                       ToolCall_Name := Call_Function_Name call;
                       ToolCall_Arguments := Call_Function_Arguments call;
                       ToolCall_Result := r |})
                 (appendMessage params (ToolMessage r (Call_ID call)))
                 w0 rs Hrun) as (msg' & params' & Heq & Hmsgs).
    exists msg', params'. split; [done |].
    rewrite Hmsgs. simpl. by rewrite <- app_assoc.
Qed.

Lemma wantsIteration_addToolCall msg call :
  wantsIteration (addToolCall msg call) = true.
Proof. unfold wantsIteration. simpl. by destruct (Message_ToolCalls msg). Qed.

Lemma toolCalls_loop_answerable tools calls msg params w :
  Forall (answerable tools) calls ->
  exists params' msg' w',
    toolCalls_loop tools calls msg params w = ((params', Ok msg'), w')
    /\ (calls <> [] \/ wantsIteration msg = true -> wantsIteration msg' = true).
Proof.
  intros Hall. revert msg params w.
  induction Hall as [| call calls (tool & Hfind & Hok) _ IH]; intros msg params w; simpl.
  - exists params, msg, w. split; [done |]. by intros [? | ?].
  - rewrite toolCall_find, Hfind.
    pose proof (Hok (Call_Function_Arguments call) w) as Hnone.
    destruct (Tool_Handle tool _ w) as [[r err] w0]. simpl in Hnone. subst err.
    match goal with |- context [toolCalls_loop tools calls ?m ?p w0] =>
      destruct (IH m p w0) as (params' & msg' & w' & Heq & Hwants) end.
    exists params', msg', w'. split; [done |].
    intros _. apply Hwants. right. apply wantsIteration_addToolCall.
Qed.

Lemma choiceToResponse_loop_asks tools choices res params w :
  Forall (fun choice =>
            audioDecodes (Choice_Message choice)
            /\ Forall (answerable tools) (ToolCalls (Choice_Message choice)))
         choices ->
  exists params' res' w',
    choiceToResponse_loop tools choices res params w = ((params', Ok res'), w')
    /\ (Exists (fun choice => ToolCalls (Choice_Message choice) <> []) choices
        \/ existsb wantsIteration (ModelResponse_Messages res) = true ->
        existsb wantsIteration (ModelResponse_Messages res') = true).
Proof.
  intros Hall. revert res params w.
  induction Hall as [| choice choices [Haudio Hcalls] _ IH]; intros res params w; simpl.
  - exists params, res, w. split; [done |].
    intros [Hex | ?]; [by apply Exists_nil in Hex | done].
  - set (m := Choice_Message choice) in *.
    assert (Hdec : exists msg1,
      (if String.eqb (Audio_Data m) "" then
         Ok (if String.eqb (Content m) "" then newMessage StatusCompleted
             else addPart (newMessage StatusCompleted) (TextPart (Content m)))
       else match DecodeString (Audio_Data m) with
            | Ok bytes =>
                Ok (addPart (if String.eqb (Content m) "" then newMessage StatusCompleted
                             else addPart (newMessage StatusCompleted) (TextPart (Content m)))
                            (DataPart "" bytes ""))
            | Err e => Err e
            end) = Ok msg1).
    { destruct Haudio as [-> | [bytes ->]]; simpl; [by eexists |].
      destruct (String.eqb (Audio_Data m) ""); by eexists. }
    destruct Hdec as [msg1 ->].
    match goal with |- context [toolCalls_loop tools (ToolCalls m) ?a ?b w] =>
      destruct (toolCalls_loop_answerable tools (ToolCalls m) a b w Hcalls)
        as (p1 & msg2 & w1 & -> & Hwants) end.
    match goal with |- context [choiceToResponse_loop tools choices ?r p1 w1] =>
      destruct (IH r p1 w1) as (params' & res' & w' & Heq & Hex) end.
    exists params', res', w'. split; [done |].
    intros Hcase. apply Hex. simpl. rewrite existsb_app. simpl.
    destruct Hcase as [Hexists | Hres].
    + apply Exists_cons in Hexists as [Hhere | Hlater]; [| by left].
      right. rewrite Hwants; [| by left]. by rewrite orb_true_r.
    + right. by rewrite Hres.
Qed.

(** C7 (as amended). A Data part of a user message whose MIME type
    classifies as "audio" becomes an inline-audio wire part whose data field
    is the fixed prefix "data:;base64," (the MIME type is not written into
    it) followed by the base64 encoding of the part's bytes, with the format
    derived from the MIME type; the part keeps its place among the other
    parts. *)
Theorem audio_data_part_inline (message : Message) (pre post : list Part)
    (name mime : string) (bytes : list byte) :
  MimeType_Type mime = "audio" ->
  Message_Parts message = pre ++ DataPart name bytes mime :: post ->
  toContentParts message
  = flat_map toContentPart pre
    ++ InputAudioContentPart ("data:;base64," +:+ EncodeToString bytes)
                             (MimeType_Format mime)
    :: flat_map toContentPart post.
Proof.
  intros Haudio Hparts.
  rewrite toContentParts_flat_map, Hparts, flat_map_app. simpl.
  by rewrite Haudio.
Qed.

(** C8. Tool dispatch: the first tool whose name is exactly the requested
    one answers, and [toolCall] returns what its handler returns, result
    string and error alike; when no tool has that name, [toolCall] returns
    the empty string and [ErrToolNotFound], and the world is untouched. *)
Theorem toolCall_dispatch tools (name arguments : string) w :
  (forall pre tool post,
      tools = pre ++ tool :: post ->
      Forall (fun t => Tool_Name t <> name) pre ->
      Tool_Name tool = name ->
      toolCall tools name arguments w = Tool_Handle tool arguments w)
  /\ (Forall (fun t => Tool_Name t <> name) tools ->
      toolCall tools name arguments w = (("", Some ErrToolNotFound), w)).
Proof.
  split.
  - intros pre tool post -> Hpre Hname.
    rewrite toolCall_skip by done. simpl.
    apply String.eqb_eq in Hname. by rewrite Hname.
  - intros Hnone.
    rewrite <- (app_nil_r tools), toolCall_skip by done. done.
Qed.

(** C9 (as amended). Round trip of a text [s]: a Text part holding [s]
    translates to the wire text part holding [s]. A wire choice whose
    message content is [s], whenever its assembly succeeds, comes back as a
    first message whose first part is the Text part [s] when [s] is not
    empty, and as a first message without any Text part when [s] is empty.
    A choice with only that content assembles, to one assistant message
    whose parts are exactly that Text part, or no part for the empty
    string. *)
Theorem text_round_trip (s : string) :
  toContentPart (TextPart s) = [TextContentPart s]
  /\ (forall params tools choice rest w params' res w',
         Content (Choice_Message choice) = s ->
         choiceToResponse params tools (choice :: rest) w = ((params', Ok res), w') ->
         exists first others,
           ModelResponse_Messages res = first :: others
           /\ (s <> "" ->
               exists parts, Message_Parts first = TextPart s :: parts)
           /\ (s = "" ->
               forall text, TextPart text ∉ Message_Parts first))
  /\ (forall params tools finish w,
         exists first,
           choiceToResponse params tools
             [{| Choice_FinishReason := finish;
                 Choice_Message := {| Content := s; Refusal := ""; Audio_Data := "";
                                      ToolCalls := [] |} |}] w
           = ((params, Ok {| ModelResponse_Messages := [first] |}), w)
           /\ Message_Role first = RoleAssistant
           /\ (s <> "" -> Message_Parts first = [TextPart s])
           /\ (s = "" -> Message_Parts first = [])).
Proof.
  split; [done |]. split.
  - intros params tools choice rest w params' res w' Hcontent.
    unfold choiceToResponse. simpl. rewrite Hcontent.
    match goal with |- context [match ?d with Ok _ => _ | Err _ => _ end] =>
      destruct d as [msg1 | e] eqn:Hd end; [| done].
    assert (Hparts : exists extra,
               Message_Parts msg1
               = (if String.eqb s "" then [] else [TextPart s]) ++ extra
               /\ forall text, TextPart text ∉ extra).
    { destruct (String.eqb (Audio_Data (Choice_Message choice)) "").
      - injection Hd as <-. exists []. split.
        + destruct (String.eqb s ""); simpl; by rewrite ?app_nil_r.
        + intros text Hin. by apply elem_of_nil in Hin.
      - destruct (DecodeString _) as [bytes | e]; [| done]. injection Hd as <-.
        exists [DataPart "" bytes ""]. split.
        + by destruct (String.eqb s "").
        + intros text Hin. by apply list_elem_of_singleton in Hin. }
    destruct Hparts as (extra & Hparts & Hextra).
    destruct (toolCalls_loop _ _ _ _ _) as [[p1 [msg2 | e]] w1] eqn:Hloop; [| done].
    apply toolCalls_loop_parts in Hloop.
    intros Hrest. apply choiceToResponse_loop_messages in Hrest as [more Hmore].
    simpl in Hmore. exists msg2, more. split; [done |].
    assert (Hsame : Message_Parts msg2 = Message_Parts msg1).
    { rewrite Hloop.
      by destruct (String.eqb (Refusal _) ""), (String.eqb (Choice_FinishReason _) ""). }
    rewrite Hsame, Hparts. split.
    + intros Hs. apply String.eqb_neq in Hs. rewrite Hs. by exists extra.
    + intros ->. simpl. exact Hextra.
  - intros params tools finish w.
    unfold choiceToResponse. simpl.
    destruct (String.eqb_spec s "") as [-> | Hs];
      destruct (String.eqb finish ""); eexists; repeat split; done.
Qed.

Lemma choiceToResponse_loop_app tools (before more : list ChatCompletionChoice)
    res params w params1 res1 w0 :
  choiceToResponse_loop tools before res params w = ((params1, Ok res1), w0) ->
  choiceToResponse_loop tools (before ++ more) res params w
  = choiceToResponse_loop tools more res1 params1 w0.
Proof.
  revert res params w.
  induction before as [| choice before IH]; intros res params w; simpl.
  - by intros [= <- <- <-].
  - match goal with |- context [match ?d with Ok _ => _ | Err _ => _ end] =>
      destruct d as [msg1 | e] end; [| done].
    destruct (toolCalls_loop _ _ _ _ _) as [[p1 [msg2 | e]] w1]; [| done].
    apply IH.
Qed.

Lemma choiceToResponse_loop_fails_here tools
    (choice : ChatCompletionChoice) (rest : list ChatCompletionChoice)
    (done later : list WireToolCall) (bad : WireToolCall)
    res params w (results : list string) w1 (r : string) (e : Error) w2 :
  audioDecodes (Choice_Message choice) ->
  ToolCalls (Choice_Message choice) = done ++ bad :: later ->
  runCalls tools done w = (Some results, w1) ->
  toolCall tools (Call_Function_Name bad) (Call_Function_Arguments bad) w1
  = ((r, Some e), w2) ->
  exists params',
    choiceToResponse_loop tools (choice :: rest) res params w = ((params', Err e), w2)
    /\ Params_Messages params'
       = Params_Messages params
         ++ ToParam (Choice_Message choice) :: toolMessages results done.
Proof.
  intros Haudio Hcalls Hrun Hbad. simpl.
  set (m := Choice_Message choice) in *.
  assert (Hdec : exists msg1,
    (if String.eqb (Audio_Data m) "" then
       Ok (if String.eqb (Content m) "" then newMessage StatusCompleted
           else addPart (newMessage StatusCompleted) (TextPart (Content m)))
     else match DecodeString (Audio_Data m) with
          | Ok bytes =>
              Ok (addPart (if String.eqb (Content m) "" then newMessage StatusCompleted
                           else addPart (newMessage StatusCompleted) (TextPart (Content m)))
                          (DataPart "" bytes ""))
          | Err e => Err e
          end) = Ok msg1).
  { destruct Haudio as [-> | [bytes ->]]; simpl; [by eexists |].
    destruct (String.eqb (Audio_Data m) ""); by eexists. }
  destruct Hdec as [msg1 ->].
  rewrite Hcalls.
  match goal with |- context [toolCalls_loop tools _ ?a ?b w] =>
    destruct (toolCalls_loop_run tools done (bad :: later) a b w results w1 Hrun)
      as (msg' & p' & -> & Hmsgs) end.
  simpl. rewrite Hbad.
  exists p'. split; [done |].
  rewrite Hmsgs. destruct done; simpl; by rewrite <- app_assoc.
Qed.

(** C10. No rollback on a failed tool call, wherever the choice stands.
    When the choices [before] have assembled, leaving the request
    [params1], the calls [done] of the next choice have succeeded with
    [results] and its next call fails with [e], the assembler returns [e]
    and no response, and the request it hands back holds everything
    appended up to then: the entries of [params1] (the earlier messages and
    all that the choices before appended), the assistant's tool-call
    announcement of this choice, and the tool-result entry of every call in
    [done]. *)
Theorem choiceToResponse_no_rollback params tools
    (before : list ChatCompletionChoice)
    (choice : ChatCompletionChoice) (rest : list ChatCompletionChoice)
    (done later : list WireToolCall) (bad : WireToolCall)
    w params1 (res1 : ModelResponse) w0
    (results : list string) w1 (r : string) (e : Error) w2 :
  choiceToResponse params tools before w = ((params1, Ok res1), w0) ->
  audioDecodes (Choice_Message choice) ->
  ToolCalls (Choice_Message choice) = done ++ bad :: later ->
  runCalls tools done w0 = (Some results, w1) ->
  toolCall tools (Call_Function_Name bad) (Call_Function_Arguments bad) w1
  = ((r, Some e), w2) ->
  exists params',
    choiceToResponse params tools (before ++ choice :: rest) w
    = ((params', Err e), w2)
    /\ Params_Messages params'
       = Params_Messages params1
         ++ ToParam (Choice_Message choice) :: toolMessages results done
    /\ Params_Messages params `prefix_of` Params_Messages params1.
Proof.
  intros Hbefore Haudio Hcalls Hrun Hbad.
  destruct (choiceToResponse_loop_fails_here tools choice rest done later bad
              res1 params1 w0 results w1 r e w2 Haudio Hcalls Hrun Hbad)
    as (params' & Hfail & Hmsgs).
  exists params'. split; [| split; [done |]].
  - unfold choiceToResponse in *.
    by rewrite (choiceToResponse_loop_app _ _ _ _ _ _ _ _ _ Hbefore).
  - pose proof (choiceToResponse_loop_extends tools before
                  {| ModelResponse_Messages := [] |} params w) as Hext.
    unfold choiceToResponse in Hbefore. rewrite Hbefore in Hext. exact Hext.
Qed.

End Assembly.

(** ** Properties of the two drivers *)

Section Drivers.
Context {P : Platform} {C : WireClient}.
Implicit Types (params : ChatCompletionNewParams) (tools : list Tool)
  (opts : ModelOptions) (s : State) (w : World).

Lemma New_guard params tools opts s :
  MaxIterations opts < 1 ->
  New params tools opts s = (Err ErrTooManyIterations, s).
Proof.
  intros Hlt. rewrite New_equation_1.
  destruct (Z_lt_dec (MaxIterations opts) 1); [by simp New | lia].
Qed.

Lemma New_step params tools opts s :
  1 <= MaxIterations opts ->
  New params tools opts s =
  match Completions_New params (outside s) with
  | (Err e, w1) => (Err e, submit params s w1)
  | (Ok chatResponse, w1) =>
      match choiceToResponse params tools (Choices chatResponse) w1 with
      | ((_, Err e), w2) => (Err e, submit params s w2)
      | ((params', Ok res), w2) =>
          if existsb wantsIteration (ModelResponse_Messages res)
          then New params' tools (decrement opts) (submit params s w2)
          else (Ok res, submit params s w2)
      end
  end.
Proof.
  intros Hge. rewrite New_equation_1.
  destruct (Z_lt_dec (MaxIterations opts) 1); [lia |]. by simp New.
Qed.

Lemma extends_refl params : extends params params.
Proof. by unfold extends. Qed.

Lemma extends_trans params1 params2 params3 :
  extends params1 params2 -> extends params2 params3 -> extends params1 params3.
Proof. unfold extends. intros H1 H2. by etrans. Qed.

Lemma choiceToResponse_extends params tools choices w :
  extends params (fst (fst (choiceToResponse params tools choices w))).
Proof. apply choiceToResponse_loop_extends. Qed.

(** Every request [New] submits extends the one it was entered with and
    every one submitted before it. *)
Lemma New_sent params tools opts s :
  exists requests,
    sent (snd (New params tools opts s)) = sent s ++ requests
    /\ StronglySorted extends (params :: requests).
Proof.
  remember (Z.to_nat (MaxIterations opts)) as n eqn:Hn.
  revert params opts s Hn.
  induction n as [| n IH]; intros params opts s Hn.
  - rewrite New_guard by lia. exists []. simpl. rewrite app_nil_r.
    split; [done |]. repeat constructor.
  - rewrite New_step by lia.
    assert (Hone : StronglySorted extends [params; params]).
    { repeat constructor. apply extends_refl. }
    destruct (Completions_New params (outside s)) as [[chat | e] w1];
      [| by exists [params]].
    pose proof (choiceToResponse_extends params tools (Choices chat) w1) as Hext.
    destruct (choiceToResponse params tools (Choices chat) w1)
      as [[params' [res | e]] w2]; simpl in Hext; [| by exists [params]].
    destruct (existsb wantsIteration (ModelResponse_Messages res));
      [| by exists [params]].
    destruct (IH params' (decrement opts) (submit params s w2)) as (reqs & Hsent & Hsorted);
      [simpl; lia |].
    exists (params :: reqs). split.
    + rewrite Hsent. simpl. by rewrite <- app_assoc.
    + apply StronglySorted_inv in Hsorted as [Hss Hall].
      assert (Hall' : Forall (extends params) reqs).
      { eapply Forall_impl; [apply Hall |]. intros q Hq. by eapply extends_trans. }
      constructor; [by constructor |].
      constructor; [apply extends_refl | done].
Qed.



Lemma relay_loop_ext (nested1 nested2 : ModelOptions -> State -> result Streamer * State)
    (msgs : list Message) opts (out : list ModelResponse) s :
  (forall o s0, MaxIterations o < MaxIterations opts -> nested1 o s0 = nested2 o s0) ->
  relay_loop nested1 msgs opts out s = relay_loop nested2 msgs opts out s.
Proof.
  revert opts out s.
  induction msgs as [| msg msgs IH]; intros opts out s Hsame; simpl; [done |].
  destruct (wantsIteration msg); [| by apply IH].
  rewrite Hsame by (simpl; lia).
  destruct (nested2 (decrement opts) s) as [[toolStream | e] s1]; [| done].
  destruct (failure toolStream); [done |].
  apply IH. intros o s0 Ho. apply Hsame. simpl in Ho. lia.
Qed.

(** The bound of [NewStreaming_rec] is never what stops it: any two bounds
    of at least the budget give the same run. *)
Lemma NewStreaming_rec_fuel (fuel1 fuel2 : nat) params tools opts s :
  (Z.to_nat (MaxIterations opts) <= fuel1)%nat ->
  (Z.to_nat (MaxIterations opts) <= fuel2)%nat ->
  NewStreaming_rec fuel1 params tools opts s
  = NewStreaming_rec fuel2 params tools opts s.
Proof.
  revert fuel2 params opts s.
  induction fuel1 as [| fuel1 IH]; intros fuel2 params opts s H1 H2.
  - assert (Hlt : (MaxIterations opts <? 1) = true) by (apply Z.ltb_lt; lia).
    destruct fuel2; simpl; by rewrite Hlt.
  - destruct (MaxIterations opts <? 1) eqn:Hguard.
    + destruct fuel2; simpl; by rewrite Hguard.
    + apply Z.ltb_ge in Hguard as Hge.
      destruct fuel2 as [| fuel2]; [lia |]. simpl. rewrite Hguard.
      destruct (Completions_NewStreaming params (outside s)) as [stream w1].
      destruct (chunks_loop tools (Stream_chunks stream) _ []) as [[acc out] [e |]];
        [done |].
      destruct (choiceToResponse params tools (Choices acc) w1)
        as [[params' [lastResponse | e]] w2]; [| done].
      rewrite (relay_loop_ext (NewStreaming_rec fuel1 params' tools)
                              (NewStreaming_rec fuel2 params' tools)); [done |].
      intros o s0 Ho. apply IH; lia.
Qed.

(** With a model that asks for tools on every cycle, a budget of [n] is
    spent in exactly [n] request cycles, after which the entry guard
    answers. *)
Lemma New_exhausts (n : nat) params tools opts s :
  (forall params0 w, exists chat w1,
      Completions_New params0 w = (Ok chat, w1) /\ asksForTools tools chat) ->
  MaxIterations opts = Z.of_nat n ->
  exists s' requests,
    New params tools opts s = (Err ErrTooManyIterations, s')
    /\ sent s' = sent s ++ requests
    /\ length requests = n.
Proof.
  intros Hmodel. revert params opts s.
  induction n as [| n IH]; intros params opts s Hn.
  - rewrite New_guard by lia. exists s, []. by rewrite app_nil_r.
  - rewrite New_step by lia.
    destruct (Hmodel params (outside s)) as (chat & w1 & -> & Hex & Hall).
    destruct (choiceToResponse_loop_asks tools (Choices chat)
                {| ModelResponse_Messages := [] |} params w1 Hall)
      as (params' & res & w2 & Heq & Hwants).
    unfold choiceToResponse. rewrite Heq, Hwants by (by left).
    destruct (IH params' (decrement opts) (submit params s w2)) as (s' & reqs & -> & Hsent & Hlen);
      [simpl; lia |].
    exists s', (params :: reqs). split; [done |]. split.
    + rewrite Hsent. simpl. by rewrite <- app_assoc.
    + simpl. by rewrite Hlen.
Qed.

(** C1 (as amended). With a model that replies with a tool call on every
    cycle and [MaxIterations = 2], [New] performs exactly two request
    cycles, the first with the request it was given, and then stops with
    [ErrTooManyIterations]: the guard of the third entry rejects, and no
    ModelResponse is returned. *)
Theorem New_budget_two params tools opts s :
  (forall params0 w, exists chat w1,
      Completions_New params0 w = (Ok chat, w1) /\ asksForTools tools chat) ->
  MaxIterations opts = 2 ->
  exists s' second,
    New params tools opts s = (Err ErrTooManyIterations, s')
    /\ sent s' = sent s ++ [params; second].
Proof.
  intros Hmodel Htwo.
  destruct (New_exhausts 2 params tools opts s Hmodel Htwo)
    as (s' & reqs & Heq & Hsent & Hlen).
  destruct (New_sent params tools opts s) as (reqs' & Hsent' & _).
  rewrite Heq in Hsent'. simpl in Hsent'.
  destruct reqs as [| first [| second [| ? ?]]]; try discriminate.
  exists s', second. split; [done |].
  assert (first = params) as ->; [| done].
  revert Heq. rewrite New_step by lia.
  destruct (Hmodel params (outside s)) as (chat & w1 & -> & _ & Hall).
  destruct (choiceToResponse_loop_asks tools (Choices chat)
              {| ModelResponse_Messages := [] |} params w1 Hall)
    as (params' & res & w2 & Hloop & _).
  unfold choiceToResponse. rewrite Hloop.
  destruct (existsb _ _); [| done].
  intros Heq.
  destruct (New_sent params' tools (decrement opts) (submit params s w2))
    as (more & Hmore & _).
  rewrite Heq in Hmore. simpl in Hmore. rewrite Hsent, <- app_assoc in Hmore.
  apply app_inv_head in Hmore. simpl in Hmore. congruence.
Qed.

(** C2 (what the code does). When the vendor's completion has no choices,
    [New] returns an empty ModelResponse and no error: [ErrEmptyResponse] is
    not raised. *)
Theorem New_zero_choices params tools opts s w1 :
  1 <= MaxIterations opts ->
  Completions_New params (outside s) = (Ok {| Choices := [] |}, w1) ->
  New params tools opts s
  = (Ok {| ModelResponse_Messages := [] |}, submit params s w1).
Proof.
  intros Hge Hreply. rewrite New_step by done. by rewrite Hreply.
Qed.

(** C3 (what the code does). When the wire stream breaks with a transport
    error before any chunk, the background task does not see it: it
    assembles the empty accumulated result, emits that response, and ends
    without an error. *)
Theorem NewStreaming_transport_error_unseen params tools opts s (e : Error) w1 :
  1 <= MaxIterations opts ->
  Completions_NewStreaming params (outside s)
  = ({| Stream_chunks := []; Stream_Err := Some e |}, w1) ->
  NewStreaming params tools opts s
  = (Ok {| items := [{| ModelResponse_Messages := [] |}]; failure := None |},
     submit params s w1).
Proof.
  intros Hge Hstream. unfold NewStreaming.
  destruct (Z.to_nat (MaxIterations opts)) as [| fuel] eqn:Hfuel; [lia |].
  simpl. apply Z.ltb_ge in Hge. by rewrite Hge, Hstream.
Qed.

(** The errors the background task does pass on: when assembling the
    accumulated result fails (a tool error, a tool that is not found, audio
    that does not decode), the stream holds the partial updates sent so far
    and ends with that error. *)
Lemma NewStreaming_assembly_error params tools opts s (stream : WireStream)
    w1 (acc : ChatCompletion) (out : list ModelResponse) params' (e : Error) w2 :
  1 <= MaxIterations opts ->
  Completions_NewStreaming params (outside s) = (stream, w1) ->
  chunks_loop tools (Stream_chunks stream) {| Choices := [] |} [] = (acc, out, None) ->
  choiceToResponse params tools (Choices acc) w1 = ((params', Err e), w2) ->
  NewStreaming params tools opts s
  = (Ok {| items := out; failure := Some e |}, submit params s w2).
Proof.
  intros Hge Hstream Hchunks Hfail. unfold NewStreaming.
  destruct (Z.to_nat (MaxIterations opts)) as [| fuel] eqn:Hfuel; [lia |].
  simpl. apply Z.ltb_ge in Hge. by rewrite Hge, Hstream, Hchunks, Hfail.
Qed.


(** C5 (as amended). With [MaxIterations < 1] neither entry point reaches
    the wire client. [NewStream] fails with [ErrTooManyIterations].
    [Generate] translates the request first: it fails with the translation
    error when there is one, and with [ErrTooManyIterations] otherwise. *)
Theorem budget_below_one (req : ModelRequest)
    (options : list (ModelOptions -> ModelOptions)) s :
  MaxIterations (applyOptions options) < 1 ->
  NewStream req options s = (Err ErrTooManyIterations, s)
  /\ Generate req options s
     = (Err match toChatCompletionParams req (applyOptions options) with
            | Err e => e
            | Ok _ => ErrTooManyIterations
            end, s).
Proof.
  intros Hlt. unfold NewStream, Generate. split.
  - assert (Hle : (MaxIterations (applyOptions options) <=? 0) = true)
      by (apply Z.leb_le; lia).
    by rewrite Hle.
  - destruct (toChatCompletionParams req (applyOptions options)); [| done].
    by apply New_guard.
Qed.

(** C6. A request whose model is not one of the six recognised names does
    not translate: [toChatCompletionParams] fails with [ErrInvalidModel],
    [Generate] returns that error, [NewStream] returns it too unless its own
    budget check fails first, and in each case nothing is submitted to the
    vendor. *)
Theorem invalid_model_rejected (req : ModelRequest) (opt : ModelOptions)
    (options : list (ModelOptions -> ModelOptions)) s :
  ModelRequest_Model req ∉ supportedModels ->
  toChatCompletionParams req opt = Err ErrInvalidModel
  /\ Generate req options s = (Err ErrInvalidModel, s)
  /\ NewStream req options s
     = (Err (if MaxIterations (applyOptions options) <=? 0
             then ErrTooManyIterations else ErrInvalidModel), s).
Proof.
  intros Hmodel.
  assert (Hinvalid : isValidModel (ModelRequest_Model req) = false).
  { destruct (isValidModel (ModelRequest_Model req)) eqn:Hv; [| done].
    by apply isValidModel_supported in Hv. }
  assert (Htr : forall o, toChatCompletionParams req o = Err ErrInvalidModel).
  { intros o. unfold toChatCompletionParams. by rewrite Hinvalid. }
  split; [apply Htr |]. unfold Generate, NewStream. rewrite Htr.
  split; [done |]. by destruct (_ <=? 0).
Qed.

End Drivers.

(** ** The statements at concrete inputs *)

Lemma toolLoopClient_asks :
  forall (params0 : @ChatCompletionNewParams demoPlatform) (w : @World demoPlatform),
  exists chat w1,
    Completions_New (WireClient := toolLoopClient) params0 w = (Ok chat, w1)
    /\ asksForTools demoTools chat.
Proof.
  intros params0 w. eexists _, _. split; [reflexivity |]. split.
  - constructor. discriminate.
  - constructor; [| constructor]. split; [by left |].
    constructor; [| constructor].
    exists echoTool. split; [reflexivity |]. intros arguments w0. reflexivity.
Defined.

Lemma New_budget_two_witness :
  exists s' second,
    New (C := toolLoopClient) helloParams demoTools (budget 2) startState
    = (Err ErrTooManyIterations, s')
    /\ sent s' = sent startState ++ [helloParams; second].
Proof.
  apply (New_budget_two (C := toolLoopClient) helloParams demoTools (budget 2) startState).
  - exact toolLoopClient_asks.
  - reflexivity.
Defined.

(** C1, as stated, fails: the model asks for the echo tool on every cycle,
    the budget is 2, two requests are submitted, and the run ends with
    [ErrTooManyIterations] instead of a ModelResponse. *)
Lemma New_budget_two_returns_no_response :
  let run := New (C := toolLoopClient) helloParams demoTools (budget 2) startState in
  fst run = Err ErrTooManyIterations
  /\ length (sent (snd run)) = 2%nat
  /\ ~ exists res, fst run = Ok res.
Proof.
  assert (Hrun : fst (New (C := toolLoopClient) helloParams demoTools (budget 2) startState)
                 = Err ErrTooManyIterations) by (vm_compute; reflexivity).
  simpl. split; [exact Hrun |]. split; [vm_compute; reflexivity |].
  intros [res Hres]. rewrite Hrun in Hres. discriminate.
Qed.

Lemma New_zero_choices_witness :
  New (C := emptyClient) helloParams demoTools (budget 3) startState
  = (Ok {| ModelResponse_Messages := [] |}, submit helloParams startState quiet).
Proof.
  apply (New_zero_choices (C := emptyClient) helloParams demoTools (budget 3) startState quiet).
  - simpl. lia.
  - reflexivity.
Defined.

Lemma NewStreaming_transport_error_unseen_witness :
  NewStreaming (C := brokenStreamClient) helloParams demoTools (budget 3) startState
  = (Ok {| items := [{| ModelResponse_Messages := [] |}]; failure := None |},
     submit helloParams startState quiet).
Proof.
  apply (NewStreaming_transport_error_unseen (C := brokenStreamClient)
           helloParams demoTools (budget 3) startState (ErrOther "unexpected EOF") quiet).
  - simpl. lia.
  - reflexivity.
Defined.

Lemma budget_below_one_witness :
  NewStream (C := toolLoopClient) (helloRequest QwenTurbo) [withMaxIterations 0] startState
  = (Err ErrTooManyIterations, startState)
  /\ Generate (C := toolLoopClient) (helloRequest QwenTurbo) [withMaxIterations 0] startState
     = (Err ErrTooManyIterations, startState).
Proof.
  apply (budget_below_one (C := toolLoopClient) (helloRequest QwenTurbo)
           [withMaxIterations 0] startState).
  simpl. lia.
Defined.

(** C5, as stated, fails for [Generate]: with a budget of 0 and a model name
    that is not recognised, it fails with [ErrInvalidModel]. *)
Lemma Generate_budget_zero_invalid_model :
  MaxIterations (applyOptions [withMaxIterations 0]) < 1
  /\ Generate (C := toolLoopClient) (helloRequest "gpt-4") [withMaxIterations 0] startState
     = (Err ErrInvalidModel, startState)
  /\ Generate (C := toolLoopClient) (helloRequest "gpt-4") [withMaxIterations 0] startState
     <> (Err ErrTooManyIterations, startState).
Proof.
  split; [simpl; lia |].
  assert (Hrun : Generate (C := toolLoopClient) (helloRequest "gpt-4")
                   [withMaxIterations 0] startState
                 = (Err ErrInvalidModel, startState)) by (vm_compute; reflexivity).
  split; [exact Hrun |]. rewrite Hrun. discriminate.
Qed.

Lemma invalid_model_rejected_witness :
  toChatCompletionParams (helloRequest "gpt-4") (budget 3) = Err ErrInvalidModel
  /\ Generate (C := toolLoopClient) (helloRequest "gpt-4") [] startState
     = (Err ErrInvalidModel, startState)
  /\ NewStream (C := toolLoopClient) (helloRequest "gpt-4") [] startState
     = (Err ErrInvalidModel, startState).
Proof.
  apply (invalid_model_rejected (C := toolLoopClient) (helloRequest "gpt-4")
           (budget 3) [] startState).
  intros Hin. apply isValidModel_supported in Hin. vm_compute in Hin. discriminate.
Defined.

Lemma audio_data_part_inline_witness :
  toContentParts (P := demoPlatform) clipMessage
  = [InputAudioContentPart "data:;base64,UklGRg==" "wav"].
Proof.
  apply (audio_data_part_inline (P := demoPlatform) clipMessage [] []
           "clip.wav" "audio/wav" clipBytes); reflexivity.
Defined.

(** C7, as stated, fails: the part's MIME type classifies as "audio", and
    the data field of the wire part does not begin with
    "data:audio/wav;base64,". *)
Lemma audio_data_url_without_mime :
  MimeType_Type (Platform := demoPlatform) "audio/wav" = "audio"
  /\ toContentParts (P := demoPlatform) clipMessage
     = [InputAudioContentPart "data:;base64,UklGRg==" "wav"]
  /\ String.prefix "data:audio/wav;base64," "data:;base64,UklGRg==" = false
  /\ toContentParts (P := demoPlatform) clipMessage
     <> [InputAudioContentPart
           ("data:" +:+ "audio/wav" +:+ ";base64," +:+ EncodeToString clipBytes) "wav"].
Proof.
  repeat split; try (vm_compute; reflexivity).
  vm_compute. discriminate.
Qed.

Lemma toolCall_dispatch_witness :
  toolCall demoTools "broken" "x" quiet = Tool_Handle brokenTool "x" quiet
  /\ toolCall demoTools "missing" "x" quiet = (("", Some ErrToolNotFound), quiet).
Proof.
  split.
  - apply (proj1 (toolCall_dispatch demoTools "broken" "x" quiet) [echoTool] brokenTool []).
    + reflexivity.
    + constructor; [discriminate | constructor].
    + reflexivity.
  - apply (proj2 (toolCall_dispatch demoTools "missing" "x" quiet)).
    repeat constructor; discriminate.
Defined.

Lemma text_round_trip_witness :
  toContentPart (P := demoPlatform) (TextPart "bonjour") = [TextContentPart "bonjour"]
  /\ exists first,
       choiceToResponse helloParams demoTools [textChoice "bonjour"] quiet
       = ((helloParams, Ok {| ModelResponse_Messages := [first] |}), quiet)
       /\ Message_Role first = RoleAssistant
       /\ Message_Parts first = [TextPart "bonjour"].
Proof.
  assert (Hne : "bonjour" <> "") by discriminate.
  destruct (text_round_trip (P := demoPlatform) "bonjour") as (Hout & _ & Hback).
  split; [exact Hout |].
  destruct (Hback helloParams demoTools "stop" quiet) as (first & Hrun & Hrole & Hparts & _).
  exists first. split; [exact Hrun |]. split; [exact Hrole | exact (Hparts Hne)].
Defined.

(** C9, as stated, fails for the empty string: the choice whose content is
    empty comes back as a message without parts. *)
Lemma empty_text_does_not_come_back :
  toContentPart (P := demoPlatform) (TextPart "") = [TextContentPart ""]
  /\ exists first,
       choiceToResponse helloParams demoTools [textChoice ""] quiet
       = ((helloParams, Ok {| ModelResponse_Messages := [first] |}), quiet)
       /\ Message_Parts first = [].
Proof.
  split; [reflexivity |]. eexists. split; reflexivity.
Qed.

Lemma choiceToResponse_no_rollback_witness :
  exists params',
    choiceToResponse helloParams demoTools [twoCalls; mixedChoice] quiet
    = ((params', Err (ErrOther "handler failed")), tick (tick (tick (tick quiet))))
    /\ Params_Messages params'
       = [UserMessage [TextContentPart "hello"];
          ToParam (Choice_Message twoCalls);
          ToolMessage "first" "call_1";
          ToolMessage "second" "call_2";
          ToParam (Choice_Message mixedChoice);
          ToolMessage "first" "call_1"].
Proof.
  edestruct (choiceToResponse_no_rollback (P := demoPlatform) helloParams demoTools
               [twoCalls] mixedChoice [] [callEcho "call_1" "first"]
               [callEcho "call_3" "third"] (callBroken "call_2") quiet)
    as (params' & Hrun & Hmsgs & _).
  - reflexivity.
  - by left.
  - reflexivity.
  - reflexivity.
  - reflexivity.
  - exists params'. split; [exact Hrun | exact Hmsgs].
Defined.

(** ** More on construction and translation *)

Section Translation.
Context {P : Platform}.
Implicit Types (tools : list Tool) (message : Message).

(** [isValidAPIKey] accepts exactly the keys of at least 20 bytes; the
    non-emptiness test adds nothing. *)
Lemma isValidAPIKey_length (key : string) :
  isValidAPIKey key = true <-> (20 <= String.length key)%nat.
Proof.
  unfold isValidAPIKey. rewrite andb_true_iff, Z.ltb_lt, Z.leb_le. lia.
Qed.

(** X1. Given a non-empty first key of fewer than 20 bytes,
    [NewChatProvider] builds its client from the base URL option alone: it
    passes no key to the client constructor, does not read
    DASHSCOPE_API_KEY or OPENAI_API_KEY itself, and ignores the arguments
    that follow. What the constructor takes from the environment on its own
    is not for this function to decide. *)
Theorem NewChatProvider_short_key {Client : Type}
    (NewClient : list RequestOption -> Client) (Getenv : string -> string)
    (key : string) (more : list string) :
  key <> "" ->
  (String.length key < 20)%nat ->
  NewChatProvider NewClient Getenv (key :: more)
  = {| client := NewClient [WithBaseURL baseURL] |}.
Proof.
  intros Hne Hshort. unfold NewChatProvider. simpl.
  apply String.eqb_neq in Hne. rewrite Hne. simpl.
  destruct (isValidAPIKey key) eqn:Hvalid; [| done].
  apply isValidAPIKey_length in Hvalid. lia.
Qed.


Lemma toTools_loop_shape tools (acc params : list FunctionDefinitionParam) :
  toTools_loop tools acc = Ok params ->
  exists new,
    params = acc ++ new
    /\ Forall2 (fun tool fn =>
                  Function_Name fn = Tool_Name tool
                  /\ schemaOutcome tool = Ok (Function_Parameters fn)
                  /\ Function_Description fn
                     = (if String.eqb (Tool_Description tool) "" then None
                        else Some (Tool_Description tool)))
               tools new.
Proof.
  revert acc. induction tools as [| tool tools IH]; intros acc; simpl.
  - intros [= <-]. exists []. by rewrite app_nil_r.
  - destruct (Tool_InputSchema tool) as [schema |] eqn:Hschema.
    + destruct (json_Marshal schema) as [b | e] eqn:Hb; [| done].
      destruct (json_Unmarshal b) as [parameters | e] eqn:Hp; [| done].
      intros H. destruct (IH _ H) as (new & -> & Hall).
      eexists (_ :: new). rewrite <- app_assoc. split; [done |].
      constructor; [| done]. unfold schemaOutcome. simpl.
      by rewrite Hschema, Hb, Hp.
    + intros H. destruct (IH _ H) as (new & -> & Hall).
      eexists (_ :: new). rewrite <- app_assoc. split; [done |].
      constructor; [| done]. unfold schemaOutcome. simpl.
      by rewrite Hschema.
Qed.

Lemma toTools_loop_outcome tools (acc : list FunctionDefinitionParam) :
  (Forall schemaConverts tools ->
   exists params, toTools_loop tools acc = Ok params)
  /\ (forall pre tool post e,
         tools = pre ++ tool :: post ->
         Forall schemaConverts pre ->
         schemaOutcome tool = Err e ->
         toTools_loop tools acc = Err e).
Proof.
  split.
  - intros Hall. revert acc.
    induction Hall as [| tool tools [parameters Hp] _ IH]; intros acc; simpl;
      [by eexists |].
    unfold schemaOutcome in Hp.
    destruct (Tool_InputSchema tool) as [schema |]; [| apply IH].
    destruct (json_Marshal schema) as [b | e]; [| done].
    destruct (json_Unmarshal b) as [ps | e]; [| done]. apply IH.
  - intros pre tool post e -> Hpre Hfail. revert acc.
    induction Hpre as [| t pre [parameters Hp] _ IH]; intros acc; simpl.
    + unfold schemaOutcome in Hfail.
      destruct (Tool_InputSchema tool) as [schema |]; [| done].
      destruct (json_Marshal schema) as [b | e']; [| congruence].
      destruct (json_Unmarshal b) as [ps | e']; [done | congruence].
    + unfold schemaOutcome in Hp.
      destruct (Tool_InputSchema t) as [schema |]; [| apply IH].
      destruct (json_Marshal schema) as [b | e']; [| done].
      destruct (json_Unmarshal b) as [ps | e']; [| done]. apply IH.
Qed.

Lemma toTools_converts tools :
  Forall schemaConverts tools -> exists params, toTools tools = Ok params.
Proof.
  intros Hall. unfold toTools. destruct tools; [by eexists |].
  by apply toTools_loop_outcome.
Qed.

(** X3. When [toTools] succeeds it declares every tool once, in the order
    given: same names, the description only when it is not empty, and the
    parameters the JSON round trip makes of the schema (none without a
    schema). *)
Theorem toTools_declares_each_tool tools (params : list FunctionDefinitionParam) :
  toTools tools = Ok params ->
  map Function_Name params = map Tool_Name tools
  /\ Forall2 (fun tool fn =>
                schemaOutcome tool = Ok (Function_Parameters fn)
                /\ (Function_Description fn = None <-> Tool_Description tool = "")
                /\ (forall d, Function_Description fn = Some d -> d = Tool_Description tool))
             tools params.
Proof.
  unfold toTools. intros H.
  assert (Hloop : toTools_loop tools [] = Ok params).
  { destruct tools; [| done]. by injection H as <-. }
  clear H. apply toTools_loop_shape in Hloop as (new & -> & Hall). simpl.
  induction Hall as [| tool fn tools new (Hname & Hschema & Hdesc) _ IH]; simpl;
    [by split |].
  destruct IH as [IHn IHf]. split; [by rewrite Hname, IHn |].
  constructor; [| done]. split; [done |]. rewrite Hdesc.
  destruct (String.eqb_spec (Tool_Description tool) ""); split; try done;
    try congruence.
Qed.

(** X4. [toTools] fails exactly on a schema that does not survive the JSON
    round trip: it succeeds when every schema converts, and otherwise
    returns the error of the first tool whose schema does not, whatever
    follows it. *)
Theorem toTools_first_schema_error tools :
  (Forall schemaConverts tools -> exists params, toTools tools = Ok params)
  /\ (forall pre tool post e,
         tools = pre ++ tool :: post ->
         Forall schemaConverts pre ->
         schemaOutcome tool = Err e ->
         toTools tools = Err e).
Proof.
  split; [apply toTools_converts |].
  intros pre tool post e Htools Hpre Hfail. unfold toTools.
  destruct tools as [| t ts]; [by destruct pre |].
  eapply toTools_loop_outcome; eauto.
Qed.

Lemma toTextParts_omap message :
  toTextParts message
  = omap (fun part => match part with TextPart text => Some text | _ => None end)
         (Message_Parts message).
Proof.
  unfold toTextParts.
  assert (G : forall parts acc,
    fold_left (fun parts part =>
                 match part with TextPart text => parts ++ [text] | _ => parts end)
              parts acc
    = acc ++ omap (fun part => match part with TextPart text => Some text | _ => None end)
                  parts).
  { induction parts as [| part parts IH]; intros acc; simpl.
    - by rewrite app_nil_r.
    - rewrite IH. destruct part; simpl; [by rewrite <- app_assoc | done | done]. }
  apply G.
Qed.

(** X5. [toTextParts] keeps the texts of the Text parts, in their order,
    and nothing of the File and Data parts: a text is in the result exactly
    when the message has that Text part, two messages laid end to end give
    the two results end to end, and the result is never longer than the
    part list. *)
Theorem toTextParts_keeps_texts message (text : string) :
  (text ∈ toTextParts message <-> TextPart text ∈ Message_Parts message)
  /\ (length (toTextParts message) <= length (Message_Parts message))%nat
  /\ (forall role parts1 parts2,
         toTextParts (partsMessage role (parts1 ++ parts2))
         = toTextParts (partsMessage role parts1)
           ++ toTextParts (partsMessage role parts2)).
Proof.
  rewrite !toTextParts_omap. split; [| split].
  - rewrite list_elem_of_omap. split.
    + intros (part & Hin & Hsome). destruct part; try done. by injection Hsome as ->.
    + intros Hin. by exists (TextPart text).
  - induction (Message_Parts message) as [| part parts IH]; simpl; [done |].
    destruct part; simpl; unfold omap in IH; lia.
  - intros role parts1 parts2. rewrite !toTextParts_omap. simpl. apply omap_app.
Qed.

(** X6. Only a File part of a MIME type that is neither image nor audio is
    left out of a user message: every other part gives exactly one wire
    part, so the wire parts are as many as the parts that are not left
    out. *)
Theorem toContentParts_length message :
  length (toContentParts message)
  = length (List.filter (fun part => negb (leftOut part)) (Message_Parts message)).
Proof.
  rewrite toContentParts_flat_map.
  induction (Message_Parts message) as [| part parts IH]; simpl; [done |].
  rewrite length_app, IH.
  destruct part as [text | name uri mime | name bytes mime]; simpl; [done | |].
  - destruct (String.eqb (MimeType_Type mime) "image"); simpl; [done |].
    by destruct (String.eqb (MimeType_Type mime) "audio").
  - destruct (String.eqb (MimeType_Type mime) "image"); simpl; [done |].
    by destruct (String.eqb (MimeType_Type mime) "audio").
Qed.

(** X7. A Data part whose MIME type classifies as "image" becomes an image
    wire part whose URL is "data:", the MIME type, ";base64," and the
    base64 encoding of the bytes; the part keeps its place. *)
Theorem image_data_part_url message (pre post : list Part)
    (name mime : string) (bytes : list byte) :
  MimeType_Type mime = "image" ->
  Message_Parts message = pre ++ DataPart name bytes mime :: post ->
  toContentParts message
  = flat_map toContentPart pre
    ++ ImageContentPart ("data:" +:+ mime +:+ ";base64," +:+ EncodeToString bytes)
    :: flat_map toContentPart post.
Proof.
  intros Himage Hparts.
  rewrite toContentParts_flat_map, Hparts, flat_map_app. simpl.
  by rewrite Himage.
Qed.

(** X8. A Data part whose MIME type classifies as neither "image" nor
    "audio" becomes a file attachment holding the plain base64 encoding of
    the bytes (no data URL) and the part's name; a File part is passed by
    reference, its URI going unchanged into the image URL or the audio data
    field. *)
Theorem other_parts_rendering (name uri mime : string) (bytes : list byte) :
  (MimeType_Type mime <> "image" -> MimeType_Type mime <> "audio" ->
   toContentPart (DataPart name bytes mime)
   = [FileContentPart (EncodeToString bytes) name]
   /\ toContentPart (FilePart name uri mime) = [])
  /\ (MimeType_Type mime = "image" ->
      toContentPart (FilePart name uri mime) = [ImageContentPart uri])
  /\ (MimeType_Type mime = "audio" ->
      toContentPart (FilePart name uri mime)
      = [InputAudioContentPart uri (MimeType_Format mime)]).
Proof.
  split; [| split].
  - intros Hi Ha. apply String.eqb_neq in Hi, Ha. simpl. by rewrite Hi, Ha.
  - intros Hi. simpl. by rewrite Hi.
  - intros Ha. simpl. rewrite Ha. simpl. done.
Qed.

Lemma translate_fold (msgs : list Message) (acc : list MessageParam) :
  let out :=
    fold_left (fun msgs msg =>
      match Message_Role msg with
      | RoleUser => msgs ++ [UserMessage (toContentParts msg)]
      | RoleAssistant =>
          match toTextParts msg with
          | [] => msgs
          | text :: _ => msgs ++ [AssistantMessage text]
          end
      | RoleSystem => msgs ++ [SystemMessage (toTextParts msg)]
      | RoleTool => msgs
      end) msgs acc in
  (length out <= length acc + length msgs)%nat
  /\ (Forall (fun m => isInjected m = false) acc ->
      Forall (fun m => isInjected m = false) out)
  /\ (Forall untranslated msgs -> out = acc).
Proof.
  revert acc. induction msgs as [| msg msgs IH]; intros acc; simpl.
  - split; [lia |]. done.
  - match goal with |- context [fold_left ?f msgs ?a] =>
      destruct (IH a) as (Hlen & Hinj & Hnone) end.
    split; [| split].
    + etrans; [apply Hlen |].
      destruct (Message_Role msg); try destruct (toTextParts msg);
        rewrite ?length_app; simpl; lia.
    + intros Hacc. apply Hinj.
      destruct (Message_Role msg); try destruct (toTextParts msg);
        try done; apply Forall_app; split; try done; by repeat constructor.
    + intros Hall. apply Forall_cons in Hall as [Hmsg Hrest].
      rewrite Hnone by done.
      destruct Hmsg as [-> | [-> ->]]; done.
Qed.

(** X9. What a successful translation holds. The model name and the
    reasoning effort are copied, the tools are those of [toTools], there are
    at most as many entries as messages, and no entry is a tool result or a
    tool-call announcement: a message of role tool is never translated. The
    sampling limits are sent only when positive, and then unchanged. *)
Theorem translation_shape (req : ModelRequest) (opt : ModelOptions)
    (params : ChatCompletionNewParams) :
  toChatCompletionParams req opt = Ok params ->
  Params_Model params = ModelRequest_Model req
  /\ ModelRequest_Model req ∈ supportedModels
  /\ Params_ReasoningEffort params = ReasoningEffort opt
  /\ toTools (ModelRequest_Tools req) = Ok (Params_Tools params)
  /\ (length (Params_Messages params) <= length (ModelRequest_Messages req))%nat
  /\ Forall (fun m => isInjected m = false) (Params_Messages params)
  /\ (forall n, Params_MaxCompletionTokens params = Some n ->
                n = MaxOutputTokens opt /\ 0 < n)
  /\ (forall x, Params_TopP params = Some x ->
                x = TopP opt /\ SFltb zero64 x = true)
  /\ (forall x, Params_Temperature params = Some x ->
                x = Temperature opt /\ SFltb zero64 x = true).
Proof.
  unfold toChatCompletionParams.
  destruct (isValidModel (ModelRequest_Model req)) eqn:Hvalid; simpl; [| done].
  destruct (ModelRequest_Messages req) as [| msg msgs] eqn:Hmsgs; [done |].
  destruct (toTools (ModelRequest_Tools req)) as [tools | e]; [| done].
  intros [= <-]. simpl.
  destruct (translate_fold (msg :: msgs) []) as (Hlen & Hinj & _).
  split; [done |]. split; [by apply isValidModel_supported |].
  split; [done |]. split; [done |]. split; [exact Hlen |].
  split; [by apply Hinj |].
  split; [| split].
  - intros n. destruct (0 <? MaxOutputTokens opt) eqn:Hpos; [| done].
    intros [= <-]. split; [done |]. by apply Z.ltb_lt.
  - intros x. destruct (SFltb zero64 (TopP opt)) eqn:Hpos; [| done].
    by intros [= <-].
  - intros x. destruct (SFltb zero64 (Temperature opt)) eqn:Hpos; [| done].
    by intros [= <-].
Qed.

(** X10. The test for an empty request is made on the messages given, not
    on what is translated: a request with a recognised model whose messages
    are all of role tool, or assistant messages without text, passes it and
    translates to a request with no message at all. *)
Theorem untranslated_messages_give_empty_request (req : ModelRequest)
    (opt : ModelOptions) :
  isValidModel (ModelRequest_Model req) = true ->
  ModelRequest_Messages req <> [] ->
  Forall untranslated (ModelRequest_Messages req) ->
  Forall schemaConverts (ModelRequest_Tools req) ->
  exists params,
    toChatCompletionParams req opt = Ok params
    /\ Params_Messages params = [].
Proof.
  intros Hvalid Hne Hall Htools. unfold toChatCompletionParams.
  rewrite Hvalid. simpl.
  destruct (ModelRequest_Messages req) as [| msg msgs] eqn:Hmsgs; [done |].
  destruct (toTools_converts (ModelRequest_Tools req) Htools) as [tools ->].
  destruct (translate_fold (msg :: msgs) []) as (_ & _ & Hnone).
  eexists. split; [reflexivity |]. exact (Hnone Hall).
Qed.

End Translation.

(** ** More on response assembly *)

Section MoreAssembly.
Context {P : Platform}.
Implicit Types (params : ChatCompletionNewParams) (tools : list Tool)
  (w : World) (msg : Message) (res : ModelResponse).

Lemma appendMessages_messages (entries : list MessageParam) params :
  Params_Messages (fold_left appendMessage entries params)
  = Params_Messages params ++ entries.
Proof.
  revert params. induction entries as [| m entries IH]; intros params; simpl.
  - by rewrite app_nil_r.
  - rewrite IH. simpl. by rewrite <- app_assoc.
Qed.

Lemma addToolCalls_fields (records : list ToolCall) msg :
  Message_Status (fold_left addToolCall records msg) = Message_Status msg
  /\ Message_Parts (fold_left addToolCall records msg) = Message_Parts msg
  /\ Message_Metadata (fold_left addToolCall records msg) = Message_Metadata msg
  /\ Message_ToolCalls (fold_left addToolCall records msg)
     = Message_ToolCalls msg ++ records
  /\ Message_Role (fold_left addToolCall records msg)
     = match records with [] => Message_Role msg | _ :: _ => RoleTool end.
Proof.
  revert msg. induction records as [| r records IH]; intros msg; simpl.
  - by rewrite app_nil_r.
  - destruct (IH (addToolCall msg r)) as (-> & -> & -> & -> & ->). simpl.
    rewrite <- app_assoc. by destruct records.
Qed.

Lemma toolCalls_loop_success tools calls msg params w results w1 :
  runCalls tools calls w = (Some results, w1) ->
  toolCalls_loop tools calls msg params w
  = ((fold_left appendMessage (toolMessages results calls) params,
      Ok (fold_left addToolCall (zip_with recordOf calls results) msg)), w1).
Proof.
  revert msg params w results.
  induction calls as [| call calls IH]; intros msg params w results; simpl.
  - by intros [= <- <-].
  - destruct (toolCall _ _ _ _) as [[r [e |]] w0]; [done |].
    destruct (runCalls tools calls w0) as [[rs |] w2] eqn:Hrun; simpl; [| done].
    intros [= <- <-]. by rewrite (IH _ _ _ _ Hrun).
Qed.

Lemma toolCalls_loop_inv tools calls msg params w params' msg' w' :
  toolCalls_loop tools calls msg params w = ((params', Ok msg'), w') ->
  exists results,
    runCalls tools calls w = (Some results, w')
    /\ length results = length calls.
Proof.
  revert msg params w.
  induction calls as [| call calls IH]; intros msg params w; simpl.
  - intros [= _ _ <-]. by exists [].
  - destruct (toolCall _ _ _ _) as [[r [e |]] w0]; [done |].
    intros H. destruct (IH _ _ _ H) as (rs & -> & Hlen).
    exists (r :: rs). simpl. by rewrite Hlen.
Qed.

Lemma choiceToResponse_loop_assembled tools choices res params w params' res' w' :
  choiceToResponse_loop tools choices res params w = ((params', Ok res'), w') ->
  exists new,
    ModelResponse_Messages res' = ModelResponse_Messages res ++ new
    /\ Forall2 assembled choices new.
Proof.
  revert res params w.
  induction choices as [| choice choices IH]; intros res params w; simpl.
  - intros [= _ <- _]. exists []. rewrite app_nil_r. by split.
  - set (m := Choice_Message choice).
    destruct (String.eqb (Audio_Data m) "") eqn:Ha;
      [| destruct (DecodeString (Audio_Data m)) as [bytes | e] eqn:Hdec; [| done]].
    all: match goal with |- context [toolCalls_loop ?t ?c ?a ?b ?w0] =>
           destruct (toolCalls_loop t c a b w0)
             as [[p1 [msg2 | e]] w1] eqn:Hloop; [| done];
           destruct (toolCalls_loop_inv _ _ _ _ _ _ _ _ Hloop) as (results & Hrun & Hlen);
           rewrite (toolCalls_loop_success _ _ a b _ _ _ Hrun) in Hloop;
           injection Hloop as _ <-;
           destruct (addToolCalls_fields (zip_with recordOf (ToolCalls m) results) a)
             as (Hstatus & Hparts & Hmeta & Hcalls & Hrole)
         end.
    all: intros H; destruct (IH _ _ _ H) as (new & Hnew & Hall); simpl in Hnew;
      eexists (_ :: new); rewrite Hnew, <- app_assoc; (split; [done |]);
      constructor; [| done].
    all: unfold assembled, expectedParts, expectedMetadata; fold m;
      rewrite Hstatus, Hparts, Hmeta, Hcalls, Hrole, Ha, ?Hdec.
    all: destruct (String.eqb (Refusal m) ""), (String.eqb (Choice_FinishReason choice) ""),
           (String.eqb (Content m) ""); simpl.
    all: repeat split; try done.
    all: first [ by exists results
               | revert Hlen; by destruct (ToolCalls m), results ].
Qed.

Lemma choiceToResponse_loop_plain tools choices res params w :
  Forall plain choices ->
  fst (fst (choiceToResponse_loop tools choices res params w)) = params
  /\ snd (choiceToResponse_loop tools choices res params w) = w.
Proof.
  intros Hall. revert res.
  induction Hall as [| choice choices Hplain _ IH]; intros res; simpl; [done |].
  unfold plain in Hplain. rewrite Hplain.
  match goal with |- context [match ?d with Ok _ => _ | Err _ => _ end] =>
    destruct d as [msg1 | e] end; [| done].
  simpl. apply IH.
Qed.

Lemma choiceToResponse_assembled params tools choices w params' res w' :
  choiceToResponse params tools choices w = ((params', Ok res), w') ->
  Forall2 assembled choices (ModelResponse_Messages res).
Proof.
  intros H. apply choiceToResponse_loop_assembled in H as (new & -> & Hall).
  done.
Qed.

Lemma recordOf_zip (calls : list WireToolCall) (results : list string) :
  length results = length calls ->
  Forall2 (fun call record =>
             ToolCall_ID record = Call_ID call
             /\ ToolCall_Name record = Call_Function_Name call
             /\ ToolCall_Arguments record = Call_Function_Arguments call)
          calls (zip_with recordOf calls results).
Proof.
  revert results. induction calls as [| call calls IH]; intros [| r rs] Hlen;
    simpl in *; try done; try (constructor; fail).
  constructor; [done |]. apply IH. lia.
Qed.

(** X11. A successful assembly gives exactly one message per choice, in
    order, each of status completed. The message has role tool exactly when
    its choice carries tool calls (role assistant otherwise), and it then
    holds one record per call, in call order, with the call's identifier,
    name and arguments. *)
Theorem one_message_per_choice params tools
    (choices : list ChatCompletionChoice) w params' res w' :
  choiceToResponse params tools choices w = ((params', Ok res), w') ->
  length (ModelResponse_Messages res) = length choices
  /\ Forall2 (fun choice msg =>
                Message_Status msg = StatusCompleted
                /\ (Message_Role msg = RoleTool
                    <-> ToolCalls (Choice_Message choice) <> [])
                /\ (Message_Role msg = RoleAssistant
                    <-> ToolCalls (Choice_Message choice) = [])
                /\ Forall2 (fun call record =>
                              ToolCall_ID record = Call_ID call
                              /\ ToolCall_Name record = Call_Function_Name call
                              /\ ToolCall_Arguments record
                                 = Call_Function_Arguments call)
                           (ToolCalls (Choice_Message choice))
                           (Message_ToolCalls msg))
             choices (ModelResponse_Messages res).
Proof.
  intros H. apply choiceToResponse_assembled in H.
  split; [symmetry; by eapply Forall2_length |].
  eapply Forall2_impl; [apply H |].
  intros choice msg (Hstatus & Hrole & _ & _ & results & Hlen & Hcalls).
  split; [done |]. rewrite Hrole, Hcalls.
  split; [| split]; [| | by apply recordOf_zip];
    destruct (ToolCalls (Choice_Message choice)); split; done.
Qed.

(** X12. The metadata of an assembled message holds the key "refusal"
    exactly when the choice's refusal is not empty, the key "finish_reason"
    exactly when its finish reason is not empty, each with that string, and
    no other key. *)
Theorem metadata_recorded params tools
    (choices : list ChatCompletionChoice) w params' res w' :
  choiceToResponse params tools choices w = ((params', Ok res), w') ->
  Forall2 (fun choice msg =>
             Message_Metadata msg !! "refusal"
             = (if String.eqb (Refusal (Choice_Message choice)) "" then None
                else Some (Refusal (Choice_Message choice)))
             /\ Message_Metadata msg !! "finish_reason"
                = (if String.eqb (Choice_FinishReason choice) "" then None
                   else Some (Choice_FinishReason choice))
             /\ forall key : string,
                  key <> "refusal" -> key <> "finish_reason" ->
                  Message_Metadata msg !! key = None)
          choices (ModelResponse_Messages res).
Proof.
  intros H. apply choiceToResponse_assembled in H.
  eapply Forall2_impl; [apply H |].
  intros choice msg (_ & _ & _ & -> & _). unfold expectedMetadata.
  destruct (String.eqb (Refusal (Choice_Message choice)) ""),
           (String.eqb (Choice_FinishReason choice) "");
    repeat split; try intros key Hk1 Hk2;
    rewrite ?lookup_insert, ?lookup_empty; repeat case_decide; congruence.
Qed.

(** X13. Audio of a choice. When the audio field is not empty and does not
    decode, assembly stops with the decoder's error before anything of that
    choice is appended to the request and before any of its tools runs. When
    it decodes, the bytes come back as a Data part without name and without
    MIME type, after the Text part if there is one. *)
Theorem audio_payload params tools (choice : ChatCompletionChoice)
    (rest : list ChatCompletionChoice) w :
  Audio_Data (Choice_Message choice) <> "" ->
  (forall e,
      DecodeString (Audio_Data (Choice_Message choice)) = Err e ->
      choiceToResponse params tools (choice :: rest) w = ((params, Err e), w))
  /\ (forall bytes params' res w',
         DecodeString (Audio_Data (Choice_Message choice)) = Ok bytes ->
         choiceToResponse params tools (choice :: rest) w = ((params', Ok res), w') ->
         exists first others,
           ModelResponse_Messages res = first :: others
           /\ Message_Parts first
              = (if String.eqb (Content (Choice_Message choice)) "" then []
                 else [TextPart (Content (Choice_Message choice))])
                ++ [DataPart "" bytes ""]).
Proof.
  intros Hne. apply String.eqb_neq in Hne. split.
  - intros e Hdec. unfold choiceToResponse. simpl. by rewrite Hne, Hdec.
  - intros bytes params' res w' Hdec H.
    apply choiceToResponse_assembled in H.
    apply Forall2_cons_inv_l in H as (first & others & (_ & _ & Hparts & _) & _ & ->).
    exists first, others. split; [done |].
    rewrite Hparts. unfold expectedParts. by rewrite Hne, Hdec.
Qed.

(** X14. A choice whose tool calls all succeed. The request gains the
    assistant's announcement followed by one tool-result entry per call, in
    call order, each with the call's identifier and the handler's result;
    the message has role tool and one record per call with that result; the
    world is what the handlers left. *)
Theorem tool_results_appended params tools (choice : ChatCompletionChoice)
    w (results : list string) w1 :
  audioDecodes (Choice_Message choice) ->
  ToolCalls (Choice_Message choice) <> [] ->
  runCalls tools (ToolCalls (Choice_Message choice)) w = (Some results, w1) ->
  exists params' msg,
    choiceToResponse params tools [choice] w
    = ((params', Ok {| ModelResponse_Messages := [msg] |}), w1)
    /\ Params_Messages params'
       = Params_Messages params
         ++ ToParam (Choice_Message choice)
         :: toolMessages results (ToolCalls (Choice_Message choice))
    /\ Message_Role msg = RoleTool
    /\ Message_ToolCalls msg
       = zip_with recordOf (ToolCalls (Choice_Message choice)) results.
Proof.
  intros Haudio Hcalls Hrun. unfold choiceToResponse. simpl.
  set (m := Choice_Message choice) in *.
  destruct (String.eqb (Audio_Data m) "") eqn:Ha;
    [| destruct Haudio as [Habs | [bytes ->]];
       [by apply String.eqb_neq in Ha |]].
  all: match goal with |- context [toolCalls_loop ?t ?c ?a ?b ?w0] =>
         rewrite (toolCalls_loop_success t c a b w0 results w1 Hrun);
         destruct (addToolCalls_fields (zip_with recordOf c results) a)
           as (_ & _ & _ & Hrecords & Hrole)
       end.
  all: simpl; eexists _, _; split; [reflexivity |].
  all: rewrite appendMessages_messages, Hrecords, Hrole.
  all: assert (Hlen : length results = length (ToolCalls m))
         by (destruct (toolCalls_loop_inv tools (ToolCalls m)
                         (newMessage StatusCompleted) params w _ _ _
                         (toolCalls_loop_success _ _ _ _ _ _ _ Hrun))
               as (rs & Hrs & Hl); congruence).
  all: destruct (ToolCalls m) as [| call calls] eqn:Hc; [done |].
  all: destruct results as [| r rs]; [done |].
  all: simpl; rewrite <- app_assoc; split; [done |].
  all: by destruct (String.eqb (Refusal m) ""), (String.eqb (Choice_FinishReason choice) ""),
                  (String.eqb (Content m) "").
Qed.

Lemma assembled_plain_final (choices : list ChatCompletionChoice)
    (msgs : list Message) :
  Forall2 assembled choices msgs ->
  Forall plain choices ->
  existsb wantsIteration msgs = false.
Proof.
  induction 1 as [| choice msg choices msgs (_ & Hrole & _) _ IH]; [done |].
  intros Hplain. apply Forall_cons in Hplain as [Hhere Hrest].
  simpl. rewrite IH by done. unfold plain in Hhere. rewrite Hhere in Hrole.
  unfold wantsIteration. by rewrite Hrole.
Qed.

(** X15. Choices without tool calls touch nothing: the request handed back
    is the request given and no handler runs, whether assembly succeeds or
    an audio field fails to decode; and an assembled response then has no
    message that asks for another round. *)
Theorem plain_choices_touch_nothing params tools
    (choices : list ChatCompletionChoice) w :
  Forall plain choices ->
  exists outcome,
    choiceToResponse params tools choices w = ((params, outcome), w)
    /\ forall res, outcome = Ok res ->
                   existsb wantsIteration (ModelResponse_Messages res) = false.
Proof.
  intros Hplain.
  destruct (choiceToResponse_loop_plain tools choices
              {| ModelResponse_Messages := [] |} params w Hplain) as [Hp Hw].
  unfold choiceToResponse.
  destruct (choiceToResponse_loop _ _ _ _ _) as [[p1 outcome] w1] eqn:Hloop.
  simpl in Hp, Hw. subst p1 w1. exists outcome. split; [done |].
  intros res ->. eapply assembled_plain_final; [| done].
  by eapply choiceToResponse_assembled.
Qed.

Lemma chunk_records (calls : list WireToolCall) msg :
  fold_left (fun msg call =>
               addToolCall msg
                 {| ToolCall_ID := Call_ID call;
                    ToolCall_Name := Call_Function_Name call;
                    ToolCall_Arguments := Call_Function_Arguments call;
                    ToolCall_Result := "" |})
            calls msg
  = fold_left addToolCall (map (fun call => recordOf call "") calls) msg.
Proof.
  revert msg. induction calls as [| call calls IH]; intros msg; simpl; [done |].
  by rewrite IH.
Qed.

(** X16. A chunk is decoded without running any tool and never fails: it
    gives one message per chunk choice, in order, of status incomplete, with
    the text delta as its only part when there is one, and with one record
    per announced call, holding the identifier, name and arguments of the
    delta and an empty result; the role is tool exactly when the delta
    announces a call. The tool list plays no part. *)
Theorem chunk_messages_are_partial tools
    (choices : list ChatCompletionChunkChoice) :
  exists res,
    chunkChoiceToResponse tools choices = Ok res
    /\ chunkChoiceToResponse [] choices = Ok res
    /\ Forall2 (fun choice msg =>
                  Message_Status msg = StatusIncomplete
                  /\ Message_Parts msg
                     = (if String.eqb (Delta_Content (ChunkChoice_Delta choice)) ""
                        then []
                        else [TextPart (Delta_Content (ChunkChoice_Delta choice))])
                  /\ Message_ToolCalls msg
                     = map (fun call => recordOf call "")
                           (Delta_ToolCalls (ChunkChoice_Delta choice))
                  /\ Message_Role msg
                     = match Delta_ToolCalls (ChunkChoice_Delta choice) with
                       | [] => RoleAssistant
                       | _ :: _ => RoleTool
                       end)
               choices (ModelResponse_Messages res).
Proof.
  eexists. split; [reflexivity |]. split; [reflexivity |]. simpl.
  match goal with |- Forall2 ?R choices (fold_left ?f choices []) =>
    assert (G : forall acc, exists new,
               fold_left f choices acc = acc ++ new /\ Forall2 R choices new) end.
  { induction choices as [| choice choices IH]; intros acc; simpl.
    - exists []. by rewrite app_nil_r.
    - match goal with |- context [fold_left _ choices ?a] =>
        destruct (IH a) as (new & -> & Hall) end.
      eexists (_ :: new). rewrite <- app_assoc. split; [done |].
      constructor; [| done].
      rewrite chunk_records.
      match goal with |- context [fold_left addToolCall ?l ?m0] =>
        destruct (addToolCalls_fields l m0) as (-> & -> & _ & -> & ->) end.
      destruct (String.eqb (Delta_Content _) ""), (String.eqb (Delta_Refusal _) ""),
               (String.eqb (ChunkChoice_FinishReason _) "");
        simpl; repeat split; by destruct (Delta_ToolCalls _). }
  by destruct (G []) as (new & -> & Hall).
Qed.

End MoreAssembly.

(** ** More on the two drivers *)

Section MoreDrivers.
Context {P : Platform} {C : WireClient}.
Implicit Types (params : ChatCompletionNewParams) (tools : list Tool)
  (opts : ModelOptions) (s : State) (w : World).

(** X17. [New] never submits more requests than its budget: at most
    [MaxIterations] of them, and none when the budget is below 1. *)
Theorem New_within_budget params tools opts s :
  exists requests,
    sent (snd (New params tools opts s)) = sent s ++ requests
    /\ (length requests <= Z.to_nat (MaxIterations opts))%nat.
Proof.
  remember (Z.to_nat (MaxIterations opts)) as n eqn:Hn.
  revert params opts s Hn.
  induction n as [| n IH]; intros params opts s Hn.
  - rewrite New_guard by lia. exists []. by rewrite app_nil_r.
  - rewrite New_step by lia.
    assert (Hone : (length [params] <= S n)%nat) by (simpl; lia).
    destruct (Completions_New params (outside s)) as [[chat | e] w1];
      [| by exists [params]].
    destruct (choiceToResponse params tools (Choices chat) w1)
      as [[params' [res | e]] w2]; [| by exists [params]].
    destruct (existsb wantsIteration (ModelResponse_Messages res));
      [| by exists [params]].
    destruct (IH params' (decrement opts) (submit params s w2)) as (reqs & Hsent & Hlen);
      [simpl; lia |].
    exists (params :: reqs). split.
    + rewrite Hsent. simpl. by rewrite <- app_assoc.
    + simpl. lia.
Qed.

(** X18. A response [New] returns is final: none of its messages is of
    role tool with a tool call. *)
Theorem New_response_is_final params tools opts s res s' :
  New params tools opts s = (Ok res, s') ->
  existsb wantsIteration (ModelResponse_Messages res) = false.
Proof.
  remember (Z.to_nat (MaxIterations opts)) as n eqn:Hn.
  revert params opts s Hn.
  induction n as [| n IH]; intros params opts s Hn.
  - by rewrite New_guard by lia.
  - rewrite New_step by lia.
    destruct (Completions_New params (outside s)) as [[chat | e] w1]; [| done].
    destruct (choiceToResponse params tools (Choices chat) w1)
      as [[params' [res0 | e]] w2]; [| done].
    destruct (existsb wantsIteration (ModelResponse_Messages res0)) eqn:Hwants.
    + apply IH. simpl. lia.
    + by intros [= <- _].
Qed.

(** X19. With a model that asks for tools on every cycle, a budget of
    [n >= 0] is spent in exactly [n] request cycles, and the run ends with
    [ErrTooManyIterations]. *)
Theorem New_budget_spent params tools opts s :
  (forall params0 w, exists chat w1,
      Completions_New params0 w = (Ok chat, w1) /\ asksForTools tools chat) ->
  0 <= MaxIterations opts ->
  exists s' requests,
    New params tools opts s = (Err ErrTooManyIterations, s')
    /\ sent s' = sent s ++ requests
    /\ Z.of_nat (length requests) = MaxIterations opts.
Proof.
  intros Hmodel Hge.
  destruct (New_exhausts (Z.to_nat (MaxIterations opts)) params tools opts s Hmodel)
    as (s' & reqs & Heq & Hsent & Hlen); [lia |].
  exists s', reqs. repeat split; [done | done | lia].
Qed.

(** X20. Without options [Generate] runs with a budget of 3: against a
    model that asks for tools on every cycle, a request that translates is
    submitted, extended, three times in all before [ErrTooManyIterations]
    comes back. *)
Theorem Generate_default_budget (req : ModelRequest) s :
  (forall params0 w, exists chat w1,
      Completions_New params0 w = (Ok chat, w1)
      /\ asksForTools (ModelRequest_Tools req) chat) ->
  (exists params, toChatCompletionParams req defaultOptions = Ok params) ->
  exists s' requests,
    Generate req [] s = (Err ErrTooManyIterations, s')
    /\ sent s' = sent s ++ requests
    /\ length requests = 3%nat.
Proof.
  intros Hmodel [params Htr]. unfold Generate, applyOptions.
  cbn [fold_left]. rewrite Htr. by apply New_exhausts.
Qed.

(** X21. [New] hands the first failure of a cycle to its caller as it is
    and stops there, with that one request submitted: the transport's error,
    or the error of assembly (a tool that fails or is not found, audio that
    does not decode). *)
Theorem New_first_failure params tools opts s :
  1 <= MaxIterations opts ->
  (forall e w1,
      Completions_New params (outside s) = (Err e, w1) ->
      New params tools opts s = (Err e, submit params s w1))
  /\ (forall chat w1 params' e w2,
         Completions_New params (outside s) = (Ok chat, w1) ->
         choiceToResponse params tools (Choices chat) w1 = ((params', Err e), w2) ->
         New params tools opts s = (Err e, submit params s w2)).
Proof.
  intros Hge. split.
  - intros e w1 Hdown. rewrite New_step by done. by rewrite Hdown.
  - intros chat w1 params' e w2 Hreply Hfail.
    rewrite New_step by done. by rewrite Hreply, Hfail.
Qed.

(** X22. A reply without tool calls ends the run in one cycle: [New]
    submits the request once, runs no tool, and returns what assembling the
    reply gives. *)
Theorem New_plain_reply params tools opts s (chat : ChatCompletion) w1 :
  1 <= MaxIterations opts ->
  Completions_New params (outside s) = (Ok chat, w1) ->
  Forall plain (Choices chat) ->
  exists outcome,
    choiceToResponse params tools (Choices chat) w1 = ((params, outcome), w1)
    /\ New params tools opts s = (outcome, submit params s w1).
Proof.
  intros Hge Hreply Hplain.
  destruct (choiceToResponse_loop_plain tools (Choices chat)
              {| ModelResponse_Messages := [] |} params w1 Hplain) as [Hp Hw].
  fold (choiceToResponse params tools (Choices chat) w1) in Hp, Hw.
  destruct (choiceToResponse params tools (Choices chat) w1)
    as [[p1 outcome] w2] eqn:Heq.
  simpl in Hp, Hw. subst p1 w2. exists outcome. split; [done |].
  rewrite New_step by done. rewrite Hreply, Heq.
  destruct outcome as [res | e]; [| done].
  rewrite (assembled_plain_final (Choices chat)); [done | | done].
  by eapply choiceToResponse_assembled.
Qed.

(** X23. A request with a recognised model and no message is refused with
    the error "at least one message is required" before the tools are
    looked at; [Generate] returns that error, [NewStream] returns it unless
    its budget check fails first, and nothing is submitted. *)
Theorem empty_messages_rejected (req : ModelRequest) (opt : ModelOptions)
    (options : list (ModelOptions -> ModelOptions)) s :
  isValidModel (ModelRequest_Model req) = true ->
  ModelRequest_Messages req = [] ->
  toChatCompletionParams req opt
  = Err (ErrOther "at least one message is required")
  /\ Generate req options s
     = (Err (ErrOther "at least one message is required"), s)
  /\ NewStream req options s
     = (Err (if MaxIterations (applyOptions options) <=? 0
             then ErrTooManyIterations
             else ErrOther "at least one message is required"), s).
Proof.
  intros Hvalid Hempty.
  assert (Htr : forall o, toChatCompletionParams req o
                          = Err (ErrOther "at least one message is required")).
  { intros o. unfold toChatCompletionParams. by rewrite Hvalid, Hempty. }
  split; [apply Htr |]. unfold Generate, NewStream. rewrite Htr.
  split; [done |]. by destruct (_ <=? 0).
Qed.

Lemma chunks_loop_partials tools (chunks : list ChatCompletionChunk)
    (acc : ChatCompletion) (out : list ModelResponse) :
  exists partials,
    chunks_loop tools chunks acc out
    = (fold_left AddChunk chunks acc, out ++ partials, None)
    /\ Forall2 (fun chunk partial =>
                  chunkChoiceToResponse tools (Chunk_Choices chunk) = Ok partial)
               chunks partials.
Proof.
  revert acc out. induction chunks as [| chunk chunks IH]; intros acc out.
  - exists []. simpl. by rewrite app_nil_r.
  - cbn [chunks_loop fold_left].
    destruct (chunkChoiceToResponse tools (Chunk_Choices chunk)) as [res | e] eqn:Hres;
      [| done].
    destruct (IH (AddChunk acc chunk) (out ++ [res])) as (partials & -> & Hall).
    exists (res :: partials). rewrite <- app_assoc. split; [done |].
    by constructor.
Qed.

Lemma relay_loop_idle (nested : ModelOptions -> State -> result Streamer * State)
    (msgs : list Message) opts (out : list ModelResponse) s :
  existsb wantsIteration msgs = false ->
  relay_loop nested msgs opts out s = ({| items := out; failure := None |}, s).
Proof.
  induction msgs as [| msg msgs IH]; simpl; [done |].
  destruct (wantsIteration msg); [done |]. apply IH.
Qed.

Lemma relay_loop_refused (nested : ModelOptions -> State -> result Streamer * State)
    (msgs : list Message) opts (out : list ModelResponse) s :
  (forall s0, nested (decrement opts) s0 = (Err ErrTooManyIterations, s0)) ->
  existsb wantsIteration msgs = true ->
  relay_loop nested msgs opts out s
  = ({| items := out; failure := Some ErrTooManyIterations |}, s).
Proof.
  intros Hnested.
  induction msgs as [| msg msgs IH]; simpl; [done |].
  destruct (wantsIteration msg); simpl; [| apply IH].
  intros _. by rewrite Hnested.
Qed.

Lemma NewStreaming_rec_plain (fuel : nat) params tools opts s (stream : WireStream) w1
    params' (last : ModelResponse) w2 (partials : list ModelResponse) :
  1 <= MaxIterations opts ->
  Completions_NewStreaming params (outside s) = (stream, w1) ->
  chunks_loop tools (Stream_chunks stream) {| Choices := [] |} []
  = (fold_left AddChunk (Stream_chunks stream) {| Choices := [] |}, partials, None) ->
  choiceToResponse params tools
    (Choices (fold_left AddChunk (Stream_chunks stream) {| Choices := [] |})) w1
  = ((params', Ok last), w2) ->
  existsb wantsIteration (ModelResponse_Messages last) = false ->
  NewStreaming_rec (S fuel) params tools opts s
  = (Ok {| items := partials ++ [last]; failure := None |}, submit params s w2).
Proof.
  intros Hge Hstream Hchunks Hlast Hfinal.
  simpl. apply Z.ltb_ge in Hge. rewrite Hge, Hstream, Hchunks, Hlast.
  by rewrite relay_loop_idle.
Qed.

(** X24. Order of a stream whose final result asks for no tool: the
    consumer gets one partial response per chunk, in arrival order, each the
    decoding of its chunk, then the response assembled from the accumulated
    chunks, and the stream ends without error after that one request. *)
Theorem stream_order params tools opts s (stream : WireStream) w1
    params' (last : ModelResponse) w2 :
  1 <= MaxIterations opts ->
  Completions_NewStreaming params (outside s) = (stream, w1) ->
  choiceToResponse params tools
    (Choices (fold_left AddChunk (Stream_chunks stream) {| Choices := [] |})) w1
  = ((params', Ok last), w2) ->
  existsb wantsIteration (ModelResponse_Messages last) = false ->
  exists partials,
    NewStreaming params tools opts s
    = (Ok {| items := partials ++ [last]; failure := None |}, submit params s w2)
    /\ Forall2 (fun chunk partial =>
                  chunkChoiceToResponse tools (Chunk_Choices chunk) = Ok partial)
               (Stream_chunks stream) partials.
Proof.
  intros Hge Hstream Hlast Hfinal.
  destruct (chunks_loop_partials tools (Stream_chunks stream) {| Choices := [] |} [])
    as (partials & Hchunks & Hall).
  exists partials. split; [| done].
  unfold NewStreaming.
  destruct (Z.to_nat (MaxIterations opts)) as [| fuel] eqn:Hfuel; [lia |].
  by eapply NewStreaming_rec_plain.
Qed.

(** X25. A stream with a budget of 1 whose final result asks for a tool:
    the tools of that result are run, the consumer gets the partial
    responses and the final response, and the stream then ends with
    [ErrTooManyIterations], after that one request. *)
Theorem stream_budget_one params tools opts s (stream : WireStream) w1
    params' (last : ModelResponse) w2 :
  MaxIterations opts = 1 ->
  Completions_NewStreaming params (outside s) = (stream, w1) ->
  choiceToResponse params tools
    (Choices (fold_left AddChunk (Stream_chunks stream) {| Choices := [] |})) w1
  = ((params', Ok last), w2) ->
  existsb wantsIteration (ModelResponse_Messages last) = true ->
  exists partials,
    NewStreaming params tools opts s
    = (Ok {| items := partials ++ [last];
             failure := Some ErrTooManyIterations |}, submit params s w2)
    /\ Forall2 (fun chunk partial =>
                  chunkChoiceToResponse tools (Chunk_Choices chunk) = Ok partial)
               (Stream_chunks stream) partials.
Proof.
  intros Hone Hstream Hlast Hwants.
  destruct (chunks_loop_partials tools (Stream_chunks stream) {| Choices := [] |} [])
    as (partials & Hchunks & Hall).
  exists partials. split; [| done].
  unfold NewStreaming. rewrite Hone. simpl.
  rewrite Hone. simpl. rewrite Hstream, Hchunks, Hlast.
  rewrite relay_loop_refused; [done | | done].
  intros s0. simpl. by rewrite Hone.
Qed.

Lemma NewStreaming_rec_round (fuel : nat) params tools opts s (stream : WireStream) w1
    params' (last : ModelResponse) w2 (partials : list ModelResponse) :
  1 <= MaxIterations opts ->
  Completions_NewStreaming params (outside s) = (stream, w1) ->
  chunks_loop tools (Stream_chunks stream) {| Choices := [] |} []
  = (fold_left AddChunk (Stream_chunks stream) {| Choices := [] |}, partials, None) ->
  choiceToResponse params tools
    (Choices (fold_left AddChunk (Stream_chunks stream) {| Choices := [] |})) w1
  = ((params', Ok last), w2) ->
  NewStreaming_rec (S fuel) params tools opts s
  = (Ok (fst (relay_loop (NewStreaming_rec fuel params' tools)
                (ModelResponse_Messages last) opts (partials ++ [last])
                (submit params s w2))),
     snd (relay_loop (NewStreaming_rec fuel params' tools)
            (ModelResponse_Messages last) opts (partials ++ [last])
            (submit params s w2))).
Proof.
  intros Hge Hstream Hchunks Hlast.
  simpl. apply Z.ltb_ge in Hge. rewrite Hge, Hstream, Hchunks, Hlast.
  by destruct (relay_loop _ _ _ _ _).
Qed.

(** X26. One round of tools in a stream. When the final result of the
    first stream is one message that asks for a tool and the budget is at
    least 2, a nested stream is opened on the extended request, and the
    consumer gets, in this order: the partial responses of the first
    stream, its final response, the partial responses of the nested stream,
    and the nested stream's final response. Two requests are submitted, the
    second being the extended one. *)
Theorem stream_relays_nested params tools opts s
    (stream1 : WireStream) w1 params1 (msg : Message) w2
    (stream2 : WireStream) w3 params2 (last2 : ModelResponse) w4 :
  2 <= MaxIterations opts ->
  Completions_NewStreaming params (outside s) = (stream1, w1) ->
  choiceToResponse params tools
    (Choices (fold_left AddChunk (Stream_chunks stream1) {| Choices := [] |})) w1
  = ((params1, Ok {| ModelResponse_Messages := [msg] |}), w2) ->
  wantsIteration msg = true ->
  Completions_NewStreaming params1 w2 = (stream2, w3) ->
  choiceToResponse params1 tools
    (Choices (fold_left AddChunk (Stream_chunks stream2) {| Choices := [] |})) w3
  = ((params2, Ok last2), w4) ->
  existsb wantsIteration (ModelResponse_Messages last2) = false ->
  exists partials1 partials2,
    NewStreaming params tools opts s
    = (Ok {| items := (partials1 ++ [{| ModelResponse_Messages := [msg] |}])
                      ++ partials2 ++ [last2];
             failure := None |},
       {| outside := w4; sent := sent s ++ [params; params1] |})
    /\ Forall2 (fun chunk partial =>
                  chunkChoiceToResponse tools (Chunk_Choices chunk) = Ok partial)
               (Stream_chunks stream1) partials1
    /\ Forall2 (fun chunk partial =>
                  chunkChoiceToResponse tools (Chunk_Choices chunk) = Ok partial)
               (Stream_chunks stream2) partials2.
Proof.
  intros Hge Hstream1 Hlast1 Hwants Hstream2 Hlast2 Hfinal.
  destruct (chunks_loop_partials tools (Stream_chunks stream1) {| Choices := [] |} [])
    as (partials1 & Hchunks1 & Hall1).
  destruct (chunks_loop_partials tools (Stream_chunks stream2) {| Choices := [] |} [])
    as (partials2 & Hchunks2 & Hall2).
  exists partials1, partials2. split; [| done].
  unfold NewStreaming.
  destruct (Z.to_nat (MaxIterations opts)) as [| [| fuel]] eqn:Hfuel; [lia | lia |].
  rewrite (NewStreaming_rec_round (S fuel) params tools opts s stream1 w1
             params1 {| ModelResponse_Messages := [msg] |} w2 partials1);
    try done; [| lia].
  cbn [relay_loop ModelResponse_Messages]. rewrite Hwants.
  rewrite (NewStreaming_rec_plain fuel params1 tools (decrement opts)
             (submit params s w2) stream2 w3 params2 last2 w4 partials2);
    try done; [| simpl; lia].
  cbn [failure items fst snd]. unfold submit. simpl. by rewrite <- (app_assoc (sent s)).
Qed.

(** X27. A stream whose final result does not assemble (a tool fails or
    is not found, audio does not decode): the consumer gets the partial
    responses, one per chunk, and no final response, and the stream ends
    with the error of the assembly, after that one request. *)
Theorem stream_assembly_failure params tools opts s (stream : WireStream) w1
    params' (e : Error) w2 :
  1 <= MaxIterations opts ->
  Completions_NewStreaming params (outside s) = (stream, w1) ->
  choiceToResponse params tools
    (Choices (fold_left AddChunk (Stream_chunks stream) {| Choices := [] |})) w1
  = ((params', Err e), w2) ->
  exists partials,
    NewStreaming params tools opts s
    = (Ok {| items := partials; failure := Some e |}, submit params s w2)
    /\ Forall2 (fun chunk partial =>
                  chunkChoiceToResponse tools (Chunk_Choices chunk) = Ok partial)
               (Stream_chunks stream) partials.
Proof.
  intros Hge Hstream Hfail.
  destruct (chunks_loop_partials tools (Stream_chunks stream) {| Choices := [] |} [])
    as (partials & Hchunks & Hall).
  exists partials. split; [| done].
  unfold NewStreaming.
  destruct (Z.to_nat (MaxIterations opts)) as [| fuel] eqn:Hfuel; [lia |].
  simpl. apply Z.ltb_ge in Hge. by rewrite Hge, Hstream, Hchunks, Hfail.
Qed.

End MoreDrivers.

(** ** The further statements at concrete inputs *)

Lemma NewChatProvider_short_key_witness :
  NewChatProvider (keyedFromEnvironment bothKeys) bothKeys
    ["invalid"; "sk-0123456789abcdefghij"]
  = {| client := [WithAPIKey "sk-openai-0123456789abc"; WithBaseURL baseURL] |}.
Proof.
  apply (NewChatProvider_short_key (keyedFromEnvironment bothKeys) bothKeys
           "invalid" ["sk-0123456789abcdefghij"]).
  - discriminate.
  - simpl. lia.
Defined.

Example NewChatProvider_ex :
  client (NewChatProvider (fun opts => opts) bothKeys [])
  = [WithBaseURL baseURL; WithAPIKey "sk-dashscope-0123456789"]
  /\ client (NewChatProvider (fun opts => opts) fallbackOnly [""])
     = [WithBaseURL baseURL; WithAPIKey "sk-openai-0123456789abc"]
  /\ client (NewChatProvider (fun opts => opts) bothKeys ["sk-0123456789abcdefghij"])
     = [WithBaseURL baseURL; WithAPIKey "sk-0123456789abcdefghij"].
Proof. repeat split; reflexivity. Qed.

Lemma toTools_declares_each_tool_witness :
  exists params,
    toTools [schemaTool "lookup" "{}"; schemaTool "sum" "{ }"] = Ok params
    /\ map Function_Name params = ["lookup"; "sum"].
Proof.
  eexists. split; [reflexivity |].
  apply (toTools_declares_each_tool (P := strictPlatform)
           [schemaTool "lookup" "{}"; schemaTool "sum" "{ }"]).
  reflexivity.
Defined.

Lemma toTools_first_schema_error_witness :
  toTools [schemaTool "lookup" "{}"; schemaTool "sum" "[]"; schemaTool "max" "{}"]
  = Err (ErrOther "json: cannot unmarshal into map").
Proof.
  apply (proj2 (toTools_first_schema_error (P := strictPlatform)
                  [schemaTool "lookup" "{}"; schemaTool "sum" "[]"; schemaTool "max" "{}"])
           [schemaTool "lookup" "{}"] (schemaTool "sum" "[]") [schemaTool "max" "{}"]).
  - reflexivity.
  - constructor; [| constructor]. eexists. reflexivity.
  - reflexivity.
Defined.

Lemma image_data_part_url_witness :
  toContentParts (P := demoPlatform) pngMessage
  = [TextContentPart "look"; ImageContentPart "data:image/png;base64,iVBORw=="].
Proof.
  apply (image_data_part_url (P := demoPlatform) pngMessage [TextPart "look"] []
           "pixel.png" "image/png" pngBytes); reflexivity.
Defined.

Lemma other_parts_rendering_witness :
  toContentPart (P := demoPlatform) (DataPart "doc.pdf" pngBytes "application/pdf")
  = [FileContentPart "iVBORw==" "doc.pdf"]
  /\ toContentPart (P := demoPlatform) (FilePart "doc.pdf" "file:///doc.pdf" "application/pdf")
     = [].
Proof.
  apply (proj1 (other_parts_rendering (P := demoPlatform)
                  "doc.pdf" "file:///doc.pdf" "application/pdf" pngBytes));
    intros H; vm_compute in H; discriminate H.
Defined.

Lemma translation_shape_witness :
  exists params,
    toChatCompletionParams (helloRequest QwenTurbo) (budget 3) = Ok params
    /\ Params_Model params = QwenTurbo
    /\ (length (Params_Messages params) <= 1)%nat.
Proof.
  eexists. split; [reflexivity |].
  pose proof (translation_shape (P := demoPlatform) (helloRequest QwenTurbo) (budget 3)
                _ eq_refl) as (Hmodel & _ & _ & _ & Hlen & _).
  split; [exact Hmodel | exact Hlen].
Defined.

Lemma untranslated_messages_give_empty_request_witness :
  exists params,
    toChatCompletionParams toolOnlyRequest (budget 3) = Ok params
    /\ Params_Messages params = [].
Proof.
  apply (untranslated_messages_give_empty_request (P := demoPlatform)
           toolOnlyRequest (budget 3)).
  - vm_compute. reflexivity.
  - discriminate.
  - constructor; [by left |]. constructor; [| constructor]. right. by split.
  - repeat constructor; by eexists.
Defined.

Lemma one_message_per_choice_witness :
  exists params' res w',
    choiceToResponse helloParams demoTools [textChoice "hi"; twoCalls] quiet
    = ((params', Ok res), w')
    /\ length (ModelResponse_Messages res) = 2%nat.
Proof.
  eexists _, _, _. split; [reflexivity |].
  apply (one_message_per_choice (P := demoPlatform) helloParams demoTools
           [textChoice "hi"; twoCalls] quiet _ _ _ eq_refl).
Defined.

Lemma metadata_recorded_witness :
  exists params' msg w',
    choiceToResponse helloParams demoTools [audioChoice "hi" ""] quiet
    = ((params', Ok {| ModelResponse_Messages := [msg] |}), w')
    /\ Message_Metadata msg !! "refusal" = Some "I would rather not"
    /\ Message_Metadata msg !! "finish_reason" = Some "stop".
Proof.
  eexists _, _, _. split; [reflexivity |].
  pose proof (metadata_recorded (P := demoPlatform) helloParams demoTools
                [audioChoice "hi" ""] quiet _ _ _ eq_refl) as Hall.
  apply Forall2_cons_1 in Hall as [(Hrefusal & Hfinish & _) _].
  split; [exact Hrefusal | exact Hfinish].
Defined.

Lemma audio_payload_witness :
  choiceToResponse helloParams demoTools [audioChoice "hi" "!"; twoCalls] quiet
  = ((helloParams, Err (ErrOther "illegal base64 data")), quiet).
Proof.
  apply (proj1 (audio_payload (P := demoPlatform) helloParams demoTools
                  (audioChoice "hi" "!") [twoCalls] quiet ltac:(discriminate))).
  reflexivity.
Defined.

Lemma tool_results_appended_witness :
  exists params' msg,
    choiceToResponse helloParams demoTools [twoCalls] quiet
    = ((params', Ok {| ModelResponse_Messages := [msg] |}), tick (tick quiet))
    /\ Params_Messages params'
       = [UserMessage [TextContentPart "hello"];
          ToParam (Choice_Message twoCalls);
          ToolMessage "first" "call_1";
          ToolMessage "second" "call_2"]
    /\ Message_Role msg = RoleTool
    /\ Message_ToolCalls msg
       = [recordOf (callEcho "call_1" "first") "first";
          recordOf (callEcho "call_2" "second") "second"].
Proof.
  apply (tool_results_appended (P := demoPlatform) helloParams demoTools twoCalls
           quiet ["first"; "second"] (tick (tick quiet))).
  - by left.
  - discriminate.
  - reflexivity.
Defined.

Lemma plain_choices_touch_nothing_witness :
  exists outcome,
    choiceToResponse helloParams demoTools [textChoice "hi"; audioChoice "" "TWFu"] quiet
    = ((helloParams, outcome), quiet)
    /\ forall res, outcome = Ok res ->
                   existsb wantsIteration (ModelResponse_Messages res) = false.
Proof.
  apply (plain_choices_touch_nothing (P := demoPlatform) helloParams demoTools
           [textChoice "hi"; audioChoice "" "TWFu"] quiet).
  repeat constructor.
Defined.

Lemma New_response_is_final_witness :
  exists res s',
    New (C := textClient) helloParams demoTools (budget 3) startState = (Ok res, s')
    /\ existsb wantsIteration (ModelResponse_Messages res) = false.
Proof.
  assert (Hrun : exists res s',
             New (C := textClient) helloParams demoTools (budget 3) startState
             = (Ok res, s')) by (eexists _, _; vm_compute; reflexivity).
  destruct Hrun as (res & s' & Hrun). exists res, s'. split; [exact Hrun |].
  exact (New_response_is_final (C := textClient) helloParams demoTools (budget 3)
           startState res s' Hrun).
Defined.

Lemma New_budget_spent_witness :
  exists s' requests,
    New (C := toolLoopClient) helloParams demoTools (budget 4) startState
    = (Err ErrTooManyIterations, s')
    /\ sent s' = sent startState ++ requests
    /\ Z.of_nat (length requests) = 4.
Proof.
  apply (New_budget_spent (C := toolLoopClient) helloParams demoTools (budget 4) startState).
  - exact toolLoopClient_asks.
  - simpl. lia.
Defined.

Lemma Generate_default_budget_witness :
  exists s' requests,
    Generate (C := toolLoopClient) (helloRequest QwenMax) [] startState
    = (Err ErrTooManyIterations, s')
    /\ sent s' = sent startState ++ requests
    /\ length requests = 3%nat.
Proof.
  apply (Generate_default_budget (C := toolLoopClient) (helloRequest QwenMax) startState).
  - exact toolLoopClient_asks.
  - eexists. vm_compute. reflexivity.
Defined.

Lemma New_first_failure_witness :
  New (C := downClient) helloParams demoTools (budget 3) startState
  = (Err (ErrOther "connection refused"), submit helloParams startState quiet).
Proof.
  apply (proj1 (New_first_failure (C := downClient) helloParams demoTools (budget 3)
                  startState ltac:(simpl; lia))).
  reflexivity.
Defined.

Lemma New_plain_reply_witness :
  exists outcome,
    choiceToResponse helloParams demoTools [textChoice "hi"] quiet
    = ((helloParams, outcome), quiet)
    /\ New (C := textClient) helloParams demoTools (budget 3) startState
       = (outcome, submit helloParams startState quiet).
Proof.
  apply (New_plain_reply (C := textClient) helloParams demoTools (budget 3) startState
           {| Choices := [textChoice "hi"] |} quiet).
  - simpl. lia.
  - reflexivity.
  - repeat constructor.
Defined.

Lemma empty_messages_rejected_witness :
  toChatCompletionParams emptyRequest (budget 3)
  = Err (ErrOther "at least one message is required")
  /\ Generate (C := textClient) emptyRequest [] startState
     = (Err (ErrOther "at least one message is required"), startState)
  /\ NewStream (C := textClient) emptyRequest [] startState
     = (Err (ErrOther "at least one message is required"), startState).
Proof.
  apply (empty_messages_rejected (C := textClient) emptyRequest (budget 3) [] startState).
  - vm_compute. reflexivity.
  - reflexivity.
Defined.

Lemma stream_order_witness :
  exists partials last s',
    NewStreaming (C := streamingClient) helloParams demoTools (budget 3) startState
    = (Ok {| items := partials ++ [last]; failure := None |}, s')
    /\ length partials = 3%nat
    /\ Forall (fun partial =>
                 Forall (fun msg => Message_Status msg = StatusIncomplete)
                        (ModelResponse_Messages partial)) partials
    /\ exists msg, ModelResponse_Messages last = [msg]
                   /\ Message_Status msg = StatusCompleted
                   /\ Message_Parts msg = [TextPart "Hello!"].
Proof.
  edestruct (stream_order (C := streamingClient) helloParams demoTools (budget 3)
               startState) as (partials & Hrun & Hall).
  - simpl. lia.
  - reflexivity.
  - reflexivity.
  - reflexivity.
  - eexists partials, _, _. split; [exact Hrun |].
    apply Forall2_cons_inv_l in Hall as (p1 & l1 & [= <-] & Hall & ->).
    apply Forall2_cons_inv_l in Hall as (p2 & l2 & [= <-] & Hall & ->).
    apply Forall2_cons_inv_l in Hall as (p3 & l3 & [= <-] & Hall & ->).
    apply Forall2_nil_inv_l in Hall as ->.
    split; [reflexivity |]. split; [repeat constructor |].
    eexists. repeat split.
Defined.

Lemma stream_budget_one_witness :
  exists partials last s',
    NewStreaming (C := toolStreamClient) helloParams demoTools (budget 1) startState
    = (Ok {| items := partials ++ [last]; failure := Some ErrTooManyIterations |}, s')
    /\ length (sent s') = 1%nat.
Proof.
  edestruct (stream_budget_one (C := toolStreamClient) helloParams demoTools (budget 1)
               startState) as (partials & Hrun & Hall).
  - reflexivity.
  - reflexivity.
  - reflexivity.
  - reflexivity.
  - eexists partials, _, _. split; [exact Hrun | reflexivity].
Defined.

Lemma stream_relays_nested_witness :
  exists partials1 first partials2 last s',
    NewStreaming (C := answeringClient) helloParams demoTools (budget 3) startState
    = (Ok {| items := (partials1 ++ [first]) ++ partials2 ++ [last];
             failure := None |}, s')
    /\ length partials1 = 1%nat
    /\ length partials2 = 2%nat
    /\ length (sent s') = 2%nat.
Proof.
  edestruct (stream_relays_nested (C := answeringClient) helloParams demoTools (budget 3)
               startState) as (partials1 & partials2 & Hrun & Hall1 & Hall2).
  - simpl. lia.
  - reflexivity.
  - reflexivity.
  - reflexivity.
  - reflexivity.
  - reflexivity.
  - reflexivity.
  - eexists partials1, _, partials2, _, _. split; [exact Hrun |].
    apply Forall2_length in Hall1, Hall2.
    split; [by rewrite <- Hall1 |]. split; [by rewrite <- Hall2 | reflexivity].
Defined.

Lemma stream_assembly_failure_witness :
  exists partials s',
    NewStreaming (C := failingToolStreamClient) helloParams demoTools (budget 3) startState
    = (Ok {| items := partials; failure := Some (ErrOther "handler failed") |}, s')
    /\ length partials = 2%nat.
Proof.
  edestruct (stream_assembly_failure (C := failingToolStreamClient) helloParams demoTools
               (budget 3) startState) as (partials & Hrun & Hall).
  - simpl. lia.
  - reflexivity.
  - reflexivity.
  - eexists partials, _. split; [exact Hrun |].
    apply Forall2_length in Hall. by rewrite <- Hall.
Defined.
